(** * Gate scoring endpoints: decision gravity, question depth, consequence depth

    A shallow embedding of the three scoring scripts

      - [src/ml/score_decision_gravity.py]
      - [src/ml/score_question_depth.py]
      - [src/ml/score_consequence_depth.py]

    and the properties of their [run] entry points.

    Conventions of the embedding.

    - A Python [str] is a list of Unicode code points ([list N]).  String
      literals of the scripts are ASCII and are written [py "..."].
    - A Python [float] that the scripts compute with is an exact rational
      ([Q]): products, sums, comparisons and [round(x, 3)] are the exact
      ones, the binary64 representation error of each operation is not
      modelled.  Non-finite floats only occur as parsed JSON input.
    - A Python [dict] with string keys is a [gmap str _]; the insertion order,
      which only matters to the textual rendering by [json.dumps], is not kept.
      [run] is modelled up to the dict that it hands to [json.dumps].
    - Exceptions derived from [Exception] are values of [exn]; a computation
      that may raise returns a [result].  The global NumPy generator is a
      state threaded through the monad [M].
    - What the scripts import is taken as a parameter: [json.loads], the
      loaded classifier's [predict_proba], [np.random.uniform], and the
      lower-casing of non-ASCII text. *)

From Stdlib Require Import ZArith QArith Qround Qminmax Lqa String Ascii List Bool.
From stdpp Require Import gmap strings list.
Import ListNotations.

Set Default Proof Using "Type".

(** ** The Python values the scripts handle *)

Module Py.

Abbreviation str := (list N).

(** An ASCII literal as a Python [str]. *)
Definition py (s : string) : str := map N_of_ascii (list_ascii_of_string s).

Inductive pyfloat :=
| Fin (q : Q)
| Inf (negative : bool)
| NaN.

#[warnings="-register-all"]
Inductive pyval :=
| PyNone
| PyBool (b : bool)
| PyInt (z : Z)
| PyFloat (f : pyfloat)
| PyStr (s : str)
| PyList (l : list pyval)
| PyDict (d : gmap str pyval).

Definition type_name (v : pyval) : string :=
  match v with
  | PyNone => "NoneType"
  | PyBool _ => "bool"
  | PyInt _ => "int"
  | PyFloat _ => "float"
  | PyStr _ => "str"
  | PyList _ => "list"
  | PyDict _ => "dict"
  end.

(** [bool(v)], which is what [not v] negates. *)
Definition truthy (v : pyval) : bool :=
  match v with
  | PyNone => false
  | PyBool b => b
  | PyInt z => negb (z =? 0)%Z
  | PyFloat (Fin q) => negb (Qeq_bool q 0)
  | PyFloat _ => true
  | PyStr s => match s with [] => false | _ :: _ => true end
  | PyList l => match l with [] => false | _ :: _ => true end
  | PyDict d => negb (size d =? 0)%nat
  end.

(** *** Exceptions *)

Inductive exn := Exception (cls : string) (msg : str).

(** [str(e)] *)
Definition exn_str (e : exn) : str := let 'Exception _ msg := e in msg.

Inductive result (A : Type) :=
| Ok (a : A)
| Raise (e : exn).
Arguments Ok {A} a.
Arguments Raise {A} e.

Definition AttributeError (v : pyval) (attr : string) : exn :=
  Exception "AttributeError"
    (py ("'" ++ type_name v ++ "' object has no attribute '" ++ attr ++ "'")).

Definition KeyError (key : string) : exn :=
  Exception "KeyError" (py ("'" ++ key ++ "'")).

(** [data.get(key, default)]: only a dict has the method. *)
Definition get (data : pyval) (key : str) (dflt : pyval) : result pyval :=
  match data with
  | PyDict d => Ok (default dflt (d !! key))
  | _ => Raise (AttributeError data "get")
  end.

(** [d[key]] on a table of the script itself. *)
Definition getitem {A} (d : gmap str A) (key : string) : result A :=
  match d !! py key with
  | Some v => Ok v
  | None => Raise (KeyError key)
  end.

(** Calling a function that starts with the [str] method [attr] of its
    argument: a value of another type has no such attribute. *)
Definition on_str {A} (attr : string) (f : str -> A) (v : pyval) : result A :=
  match v with
  | PyStr s => Ok (f s)
  | _ => Raise (AttributeError v attr)
  end.

(** *** State and exceptions

    [M S A] is a computation that reads and advances a state [S] (here the
    NumPy generator) and either returns or raises. *)

Definition M (S A : Type) : Type := S -> result A * S.

Definition ret {S A} (a : A) : M S A := fun s => (Ok a, s).

Definition bind {S A B} (c : M S A) (k : A -> M S B) : M S B :=
  fun s =>
    match c s with
    | (Ok a, s') => k a s'
    | (Raise e, s') => (Raise e, s')
    end.

Definition lift {S A} (r : result A) : M S A := fun s => (r, s).

(** [try: body  except Exception as e: handler(e)] *)
Definition try_except {S A} (body : M S A) (handler : exn -> M S A) : M S A :=
  fun s =>
    match body s with
    | (Ok a, s') => (Ok a, s')
    | (Raise e, s') => handler e s'
    end.

(** *** [str] methods and operators *)

(** [str.isspace] on one code point. *)
Definition isspace (c : N) : bool :=
  ((9 <=? c) && (c <=? 13) || (28 <=? c) && (c <=? 32)
   || (c =? 133) || (c =? 160) || (c =? 5760)
   || (8192 <=? c) && (c <=? 8202)
   || (c =? 8232) || (c =? 8233) || (c =? 8239) || (c =? 8287)
   || (c =? 12288))%N.

(** [text.split()]: the maximal runs of non-whitespace code points.
    [cur] is the run being read, latest code point first. *)
Fixpoint split_from (cur : str) (s : str) : list str :=
  match s with
  | [] => match cur with [] => [] | _ :: _ => [rev cur] end
  | c :: s' =>
      if isspace c then
        match cur with
        | [] => split_from [] s'
        | _ :: _ => rev cur :: split_from [] s'
        end
      else split_from (c :: cur) s'
  end.

Definition split (s : str) : list str := split_from [] s.

Fixpoint startswith (p s : str) : bool :=
  match p, s with
  | [], _ => true
  | _ :: _, [] => false
  | a :: p', b :: s' => (a =? b)%N && startswith p' s'
  end.

(** [p in s] for two strings. *)
Fixpoint contains (p s : str) : bool :=
  startswith p s || match s with [] => false | _ :: s' => contains p s' end.

(** [any(f(p) for p in ps)] *)
Definition any {A} (f : A -> bool) (ps : list A) : bool := existsb f ps.

Definition isascii (s : str) : bool := forallb (fun c => c <? 128)%N s.

Definition ascii_lower (c : N) : N :=
  if ((65 <=? c) && (c <=? 90))%N then (c + 32)%N else c.

(** [s.lower()].  On an ASCII string it maps [A-Z] to [a-z]; the full
    Unicode case mapping, used on every other string, is the parameter
    [unicode_lower]. *)
Definition lower (unicode_lower : str -> str) (s : str) : str :=
  if isascii s then map ascii_lower s else unicode_lower s.

(** *** Numbers *)

(** The integer nearest to [x], ties going to the even one. *)
Definition round_half_even (x : Q) : Z :=
  let f := Qfloor x in
  match (x - inject_Z f ?= 1 # 2)%Q with
  | Lt => f
  | Gt => (f + 1)%Z
  | Eq => if Z.even f then f else (f + 1)%Z
  end.

(** [round(x, ndigits)] for [ndigits >= 0]: the multiple of [10^-ndigits]
    nearest to [x], ties going to the even multiple. *)
Definition round (x : Q) (ndigits : nat) : Q :=
  let scale := Z.to_pos (10 ^ Z.of_nat ndigits) in
  round_half_even (x * inject_Z (Zpos scale)) # scale.

(** [max(proba)] on the two-element row of class probabilities: the first
    of the largest elements. *)
Definition max (proba : Q * Q) : Q :=
  let '(p0, p1) := proba in
  if Qle_bool p1 p0 then p0 else p1.

(** *** What the training and start-up code needs on top *)

(** What [model.predict_proba([text])[0]] does for a loaded model: the row of
    the two class probabilities, or an exception. *)
Abbreviation classifier := (pyval -> result (Q * Q)).

Definition NameError (name : string) : exn :=
  Exception "NameError" (py ("name '" ++ name ++ "' is not defined")).

Definition TypeError (msg : str) : exn := Exception "TypeError" msg.

(** Sequencing of computations that only return or raise. *)
Definition and_then {A B} (r : result A) (k : A -> result B) : result B :=
  match r with
  | Ok a => k a
  | Raise e => Raise e
  end.

(** [v[key]] for a string key.  A dict looks the key up; any other JSON value
    raises a [TypeError], whose wording [subscript_message v] is that of the
    interpreter. *)
Definition subscript (subscript_message : pyval -> str) (v : pyval)
    (key : string) : result pyval :=
  match v with
  | PyDict d =>
      match d !! py key with
      | Some x => Ok x
      | None => Raise (KeyError key)
      end
  | _ => Raise (TypeError (subscript_message v))
  end.

(** [s.lstrip()], [s.rstrip()] and [s.strip()]: drop the whitespace at the
    ends. *)
Fixpoint lstrip (s : str) : str :=
  match s with
  | [] => []
  | c :: s' => if isspace c then lstrip s' else s
  end.

Definition rstrip (s : str) : str := rev (lstrip (rev s)).

Definition strip (s : str) : str := rstrip (lstrip s).

(** [os.path.join(a, b)] when [a] is what [os.getenv] returned: [None] is
    refused, two strings are joined as the platform joins them. *)
Definition os_path_join (join : str -> str -> str) (a : option str) (b : str)
    : result str :=
  match a with
  | Some a => Ok (join a b)
  | None =>
      Raise (TypeError
               (py "expected str, bytes or os.PathLike object, not NoneType"))
  end.

End Py.

Import Py.

Declare Scope py_scope.
Notation "x <- c ;; k" := (bind c (fun x => k))
  (at level 100, c at next level, right associativity) : py_scope.
Open Scope py_scope.
Open Scope Q_scope.

Declare Scope result_scope.
Delimit Scope result_scope with res.
Notation "x <- c ;; k" := (and_then c (fun x => k))
  (at level 100, c at next level, right associativity) : result_scope.

(** ** [score_decision_gravity.py] *)

Module score_decision_gravity.
Section Endpoint.

(** State of the global NumPy generator. *)
Context {rng : Type}.
(** [json.loads] *)
Variable json_loads : str -> result pyval.
(** [model.predict_proba([text])[0]] for the model that [init] loaded: the
    row of the two class probabilities, or the exception of the pipeline
    (also the [NameError] when [init] has not run). *)
Variable predict_proba : pyval -> result (Q * Q).
(** [np.random.uniform(low, high)] *)
Variable uniform : Q -> Q -> rng -> Q * rng.

Definition np_random_uniform (low high : Q) : M rng Q :=
  fun s => let '(x, s') := uniform low high s in (Ok x, s').

(** The body of the [try] block. *)
Definition run_try (raw_data : str) : M rng pyval :=
  data <- lift (json_loads raw_data) ;;
  text <- lift (get data (py "text") (PyStr [])) ;;
  if negb (truthy text) then
    ret (PyDict {[ py "error" := PyStr (py "No text provided");
                   py "gate_decision" := PyStr (py "REFUSE") ]})
  else
    proba <- lift (predict_proba text) ;;
    let gravity_score := snd proba in
    let gate_decision :=
      if Qle_bool 0.5 gravity_score then py "PROCEED" else py "REFUSE" in
    j1 <- np_random_uniform (-0.05) 0.05 ;;
    j2 <- np_random_uniform (-0.05) 0.05 ;;
    j3 <- np_random_uniform (-0.05) 0.05 ;;
    ret (PyDict
      {[ py "gravity_score" := PyFloat (Fin (round gravity_score 3));
         py "dimensions" := PyDict
           {[ py "irreversibility" :=
                PyFloat (Fin (round (gravity_score * 0.95 + j1) 3));
              py "life_impact" :=
                PyFloat (Fin (round (gravity_score * 0.98 + j2) 3));
              py "temporal_consequence" :=
                PyFloat (Fin (round (gravity_score * 0.92 + j3) 3)) ]};
         py "gate_decision" := PyStr gate_decision;
         py "confidence" := PyFloat (Fin (round (max proba) 3)) ]}).

Definition run (raw_data : str) : M rng pyval :=
  try_except (run_try raw_data)
    (fun e =>
       ret (PyDict {[ py "error" := PyStr (exn_str e);
                      py "gate_decision" := PyStr (py "REFUSE") ]})).

End Endpoint.

Section Startup.

(** [os.getenv] *)
Variable os_getenv : str -> option str.
(** How the platform joins a directory and a file name. *)
Variable join : str -> str -> str.
(** [joblib.load] *)
Variable joblib_load : str -> result classifier.

(** Initialize model on endpoint startup.  The state is the global [model]
    of the module, unbound until a first [init] has succeeded; the line
    printed at the end is left out. *)
Definition init : M (option classifier) unit :=
  model_path <-
    lift (os_path_join join (os_getenv (py "AZUREML_MODEL_DIR"))
            (py "decision_gravity_model.joblib")) ;;
  loaded <- lift (joblib_load model_path) ;;
  fun _ => (Ok tt, Some loaded).

(** What [run] finds when it reads the global [model]. *)
Definition model_predict_proba (model : option classifier) : classifier :=
  match model with
  | Some loaded => loaded
  | None => fun _ => Raise (NameError "model")
  end.

End Startup.
End score_decision_gravity.

(** ** [score_question_depth.py] *)

Module score_question_depth.

(** Rejection guidance for shallow questions. *)
Definition REJECTION_GUIDANCE : gmap str str :=
  {[ py "generic" :=
       py "This question is too vague. Ask about specific aspects of your future experience.";
     py "advice_seeking" :=
       py "This question seeks advice. Ask about your future self's internal experience instead.";
     py "predictive" :=
       py "This question asks for predictions. Ask about one possible future experience.";
     py "leading" :=
       py "This question seeks validation. Ask open questions about your future self's experience.";
     py "binary" :=
       py "This question is too simple. Explore specific dimensions of your future experience.";
     py "comparison" :=
       py "This system explores ONE future. Ask about this path specifically." ]}.

Section Endpoint.

Context {rng : Type}.
(** The Unicode case mapping behind [str.lower], see [Py.lower]. *)
Variable unicode_lower : str -> str.
Variable json_loads : str -> result pyval.
Variable predict_proba : pyval -> result (Q * Q).
Variable uniform : Q -> Q -> rng -> Q * rng.

Definition np_random_uniform (low high : Q) : M rng Q :=
  fun s => let '(x, s') := uniform low high s in (Ok x, s').

(** Detect the type of shallow question for guidance. *)
Definition detect_rejection_type (text : str) : str :=
  let text_lower := lower unicode_lower text in
  if any (fun p => contains p text_lower)
       [py "should i"; py "what should"; py "recommend"; py "advise"]
  then py "advice_seeking"
  else if any (fun p => contains p text_lower)
       [py "will i"; py "will it"; py "what will"; py "going to"]
  then py "predictive"
  else if any (fun p => contains p text_lower)
       [py "won't"; py "isn't it"; py "don't you think"; py "right?"]
  then py "leading"
  else if any (fun p => contains p text_lower)
       [py "what if i had"; py "other option"; py "alternative"]
  then py "comparison"
  else if (length (split text) <? 6)%nat
  then py "binary"
  else py "generic".

Definition run_try (raw_data : str) : M rng pyval :=
  data <- lift (json_loads raw_data) ;;
  text <- lift (get data (py "text") (PyStr [])) ;;
  if negb (truthy text) then
    ret (PyDict {[ py "error" := PyStr (py "No text provided");
                   py "gate_decision" := PyStr (py "REJECT");
                   py "guidance" := PyStr (py "Please provide a question.") ]})
  else
    proba <- lift (predict_proba text) ;;
    let depth_score := snd proba in
    let gate_decision :=
      if Qle_bool 0.6 depth_score then py "PROCEED" else py "REJECT" in
    info <-
      (if bool_decide (gate_decision = py "REJECT") then
         rejection_type <- lift (on_str "lower" detect_rejection_type text) ;;
         fallback <- lift (getitem REJECTION_GUIDANCE "generic") ;;
         ret (PyStr rejection_type,
              PyStr (default fallback (REJECTION_GUIDANCE !! rejection_type)))
       else ret (PyNone, PyNone)) ;;
    let '(rejection_type, guidance) := info in
    j1 <- np_random_uniform (-0.05) 0.05 ;;
    j2 <- np_random_uniform (-0.05) 0.05 ;;
    j3 <- np_random_uniform (-0.05) 0.05 ;;
    ret (PyDict
      {[ py "depth_score" := PyFloat (Fin (round depth_score 3));
         py "dimensions" := PyDict
           {[ py "specificity" :=
                PyFloat (Fin (round (depth_score * 0.95 + j1) 3));
              py "introspective_depth" :=
                PyFloat (Fin (round (depth_score * 0.98 + j2) 3));
              py "non_leading" :=
                PyFloat (Fin (round (depth_score * 0.92 + j3) 3)) ]};
         py "gate_decision" := PyStr gate_decision;
         py "rejection_type" := rejection_type;
         py "guidance" := guidance;
         py "confidence" := PyFloat (Fin (round (max proba) 3)) ]}).

Definition run (raw_data : str) : M rng pyval :=
  try_except (run_try raw_data)
    (fun e =>
       ret (PyDict {[ py "error" := PyStr (exn_str e);
                      py "gate_decision" := PyStr (py "REJECT") ]})).

End Endpoint.

Section Startup.

(** [os.getenv] *)
Variable os_getenv : str -> option str.
(** How the platform joins a directory and a file name. *)
Variable join : str -> str -> str.
(** [joblib.load] *)
Variable joblib_load : str -> result classifier.

(** Initialize model on endpoint startup.  The state is the global [model]
    of the module, unbound until a first [init] has succeeded; the line
    printed at the end is left out. *)
Definition init : M (option classifier) unit :=
  model_path <-
    lift (os_path_join join (os_getenv (py "AZUREML_MODEL_DIR"))
            (py "question_depth_model.joblib")) ;;
  loaded <- lift (joblib_load model_path) ;;
  fun _ => (Ok tt, Some loaded).

(** What [run] finds when it reads the global [model]. *)
Definition model_predict_proba (model : option classifier) : classifier :=
  match model with
  | Some loaded => loaded
  | None => fun _ => Raise (NameError "model")
  end.

End Startup.
End score_question_depth.

(** ** [score_consequence_depth.py] *)

Module score_consequence_depth.
Section Endpoint.

Context {rng : Type}.
Variable json_loads : str -> result pyval.
Variable predict_proba : pyval -> result (Q * Q).
Variable uniform : Q -> Q -> rng -> Q * rng.

Definition np_random_uniform (low high : Q) : M rng Q :=
  fun s => let '(x, s') := uniform low high s in (Ok x, s').

Definition run_try (raw_data : str) : M rng pyval :=
  data <- lift (json_loads raw_data) ;;
  text <- lift (get data (py "text") (PyStr [])) ;;
  if negb (truthy text) then
    ret (PyDict {[ py "error" := PyStr (py "No text provided");
                   py "gate_decision" := PyStr (py "TERMINATE") ]})
  else
    proba <- lift (predict_proba text) ;;
    let depth_score := snd proba in
    let gate_decision :=
      if Qle_bool 0.5 depth_score then py "APPROVE" else py "TERMINATE" in
    j1 <- np_random_uniform (-0.05) 0.05 ;;
    j2 <- np_random_uniform (-0.05) 0.05 ;;
    j3 <- np_random_uniform (-0.05) 0.05 ;;
    ret (PyDict
      {[ py "consequence_depth_score" := PyFloat (Fin (round depth_score 3));
         py "dimensions" := PyDict
           {[ py "emotional_specificity" :=
                PyFloat (Fin (round (depth_score * 0.95 + j1) 3));
              py "concrete_reasoning" :=
                PyFloat (Fin (round (depth_score * 0.92 + j2) 3));
              py "narrative_depth" :=
                PyFloat (Fin (round (depth_score * 0.98 + j3) 3)) ]};
         py "gate_decision" := PyStr gate_decision;
         py "confidence" := PyFloat (Fin (round (max proba) 3)) ]}).

Definition run (raw_data : str) : M rng pyval :=
  try_except (run_try raw_data)
    (fun e =>
       ret (PyDict {[ py "error" := PyStr (exn_str e);
                      py "gate_decision" := PyStr (py "TERMINATE") ]})).

End Endpoint.

Section Startup.

(** [os.getenv] *)
Variable os_getenv : str -> option str.
(** How the platform joins a directory and a file name. *)
Variable join : str -> str -> str.
(** [joblib.load] *)
Variable joblib_load : str -> result classifier.

(** Initialize model on endpoint startup.  The state is the global [model]
    of the module, unbound until a first [init] has succeeded; the line
    printed at the end is left out. *)
Definition init : M (option classifier) unit :=
  model_path <-
    lift (os_path_join join (os_getenv (py "AZUREML_MODEL_DIR"))
            (py "consequence_depth_model.joblib")) ;;
  loaded <- lift (joblib_load model_path) ;;
  fun _ => (Ok tt, Some loaded).

(** What [run] finds when it reads the global [model]. *)
Definition model_predict_proba (model : option classifier) : classifier :=
  match model with
  | Some loaded => loaded
  | None => fun _ => Raise (NameError "model")
  end.

End Startup.
End score_consequence_depth.

(** ** [train_question_depth.py] *)

Module train_question_depth.
Section Training.

(** The arrays of NumPy. *)
Context {ndarray : Type}.
(** [json.loads] *)
Variable json_loads : str -> result pyval.
(** The wording of the [TypeError] of [v[key]], see [Py.subscript]. *)
Variable subscript_message : pyval -> str.
(** [np.array] *)
Variable np_array : list pyval -> result ndarray.

(** The loop of [load_training_data] over the lines that the open file
    yields, with the three lists built so far. *)
Fixpoint load_lines (lines : list str)
    (texts scores rejection_data : list pyval)
    : result (list pyval * list pyval * list pyval) :=
  match lines with
  | [] => Ok (texts, scores, rejection_data)
  | line :: rest =>
      (item <- json_loads (strip line) ;;
       text <- subscript subscript_message item "text" ;;
       score <- subscript subscript_message item "score" ;;
       reason <- get item (py "rejection_reason") PyNone ;;
       if truthy reason then
         text' <- subscript subscript_message item "text" ;;
         reason' <- subscript subscript_message item "rejection_reason" ;;
         guidance <- get item (py "guidance") (PyStr []) ;;
         load_lines rest (texts ++ [text]) (scores ++ [score])
           (rejection_data
              ++ [PyDict {[ py "text" := text';
                            py "reason" := reason';
                            py "guidance" := guidance ]}])
       else
         load_lines rest (texts ++ [text]) (scores ++ [score])
           rejection_data)%res
  end.

(** Load labeled question data from JSONL file.  The file is given by the
    lines that iterating over it yields. *)
Definition load_training_data (lines : list str)
    : result (list pyval * ndarray * list pyval) :=
  (loaded <- load_lines lines [] [] [] ;;
   let '(texts, scores, rejection_data) := loaded in
   array <- np_array scores ;;
   Ok (texts, array, rejection_data))%res.

(** Convert continuous scores to binary labels for classification:
    [(scores >= threshold).astype(int)].  [threshold] is [None] when the
    caller leaves the argument out, and then stands for 0.6. *)
Definition create_binary_labels (scores : list Q) (threshold : option Q)
    : list Z :=
  let threshold := default 0.6 threshold in
  map (fun score => if Qle_bool threshold score then 1%Z else 0%Z) scores.

(** Get depth score for a single question. *)
Definition get_depth_score (pipeline : classifier) (text : str)
    : result pyval :=
  (proba <- pipeline (PyStr text) ;;
   let score := snd proba in
   Ok (PyDict
     {[ py "text" := PyStr text;
        py "depth_score" := PyFloat (Fin score);
        py "gate_decision" :=
          PyStr (if Qle_bool 0.6 score then py "PROCEED" else py "REJECT");
        py "confidence" := PyFloat (Fin (max proba)) ]}))%res.

End Training.
End train_question_depth.

(** ** [train_decision_gravity.py] *)

Module train_decision_gravity.
Section Training.

(** The arrays of NumPy. *)
Context {ndarray : Type}.
(** [json.loads] *)
Variable json_loads : str -> result pyval.
(** The wording of the [TypeError] of [v[key]], see [Py.subscript]. *)
Variable subscript_message : pyval -> str.
(** [np.array] *)
Variable np_array : list pyval -> result ndarray.

(** The loop of [load_training_data] over the lines that the open file
    yields, with the two lists built so far. *)
Fixpoint load_lines (lines : list str) (texts scores : list pyval)
    : result (list pyval * list pyval) :=
  match lines with
  | [] => Ok (texts, scores)
  | line :: rest =>
      (item <- json_loads (strip line) ;;
       text <- subscript subscript_message item "text" ;;
       score <- subscript subscript_message item "score" ;;
       load_lines rest (texts ++ [text]) (scores ++ [score]))%res
  end.

(** Load labeled decision data from JSONL file.  The file is given by the
    lines that iterating over it yields. *)
Definition load_training_data (lines : list str)
    : result (list pyval * ndarray) :=
  (loaded <- load_lines lines [] [] ;;
   let '(texts, scores) := loaded in
   array <- np_array scores ;;
   Ok (texts, array))%res.

(** Convert continuous scores to binary labels for classification:
    [(scores >= threshold).astype(int)].  [threshold] is [None] when the
    caller leaves the argument out, and then stands for 0.5. *)
Definition create_binary_labels (scores : list Q) (threshold : option Q)
    : list Z :=
  let threshold := default 0.5 threshold in
  map (fun score => if Qle_bool threshold score then 1%Z else 0%Z) scores.

(** Get gravity score for a single decision text. *)
Definition get_gravity_score (pipeline : classifier) (text : str)
    : result pyval :=
  (proba <- pipeline (PyStr text) ;;
   let score := snd proba in
   Ok (PyDict
     {[ py "text" := PyStr text;
        py "gravity_score" := PyFloat (Fin score);
        py "gate_decision" :=
          PyStr (if Qle_bool 0.5 score then py "PROCEED" else py "REFUSE");
        py "confidence" := PyFloat (Fin (max proba)) ]}))%res.

End Training.
End train_decision_gravity.

(** ** [train_consequence_depth.py] *)

Module train_consequence_depth.
Section Training.

(** The arrays of NumPy. *)
Context {ndarray : Type}.
(** [json.loads] *)
Variable json_loads : str -> result pyval.
(** The wording of the [TypeError] of [v[key]], see [Py.subscript]. *)
Variable subscript_message : pyval -> str.
(** [np.array] *)
Variable np_array : list pyval -> result ndarray.

(** The loop of [load_training_data] over the lines that the open file
    yields, with the three lists built so far. *)
Fixpoint load_lines (lines : list str) (texts scores dimensions : list pyval)
    : result (list pyval * list pyval * list pyval) :=
  match lines with
  | [] => Ok (texts, scores, dimensions)
  | line :: rest =>
      (item <- json_loads (strip line) ;;
       text <- subscript subscript_message item "text" ;;
       score <- subscript subscript_message item "score" ;;
       dims <- get item (py "dimensions") (PyDict ∅) ;;
       load_lines rest (texts ++ [text]) (scores ++ [score])
         (dimensions ++ [dims]))%res
  end.

(** Load labeled reflection data from JSONL file.  The file is given by the
    lines that iterating over it yields. *)
Definition load_training_data (lines : list str)
    : result (list pyval * ndarray * list pyval) :=
  (loaded <- load_lines lines [] [] [] ;;
   let '(texts, scores, dimensions) := loaded in
   array <- np_array scores ;;
   Ok (texts, array, dimensions))%res.

(** Convert continuous scores to binary labels for classification:
    [(scores >= threshold).astype(int)].  [threshold] is [None] when the
    caller leaves the argument out, and then stands for 0.5. *)
Definition create_binary_labels (scores : list Q) (threshold : option Q)
    : list Z :=
  let threshold := default 0.5 threshold in
  map (fun score => if Qle_bool threshold score then 1%Z else 0%Z) scores.

(** Get consequence depth score for a single reflection. *)
Definition get_depth_score (pipeline : classifier) (text : str)
    : result pyval :=
  (proba <- pipeline (PyStr text) ;;
   let score := snd proba in
   Ok (PyDict
     {[ py "text" :=
          PyStr (if (100 <? length text)%nat
                 then take 100 text ++ py "..."
                 else text);
        py "consequence_depth_score" := PyFloat (Fin score);
        py "gate_decision" :=
          PyStr (if Qle_bool 0.5 score then py "APPROVE" else py "TERMINATE");
        py "confidence" := PyFloat (Fin (max proba)) ]}))%res.

End Training.
End train_consequence_depth.

(** ** [deploy_models.py] *)

Module deploy_models.

(** What the script reads of a registered model (and, without the [id], of
    a registered environment). *)
Record registered := { name : pyval; version : pyval; id : pyval }.

(** The command line, as [argparse] hands it over. *)
Record arguments := {
  subscription_id : str;
  resource_group : str;
  workspace_name : str;
  models_dir : str
}.

Definition models_info : list (str * str) :=
  [ (py "decision-gravity-classifier", py "decision_gravity_model.joblib");
    (py "question-depth-classifier", py "question_depth_model.joblib");
    (py "consequence-depth-classifier", py "consequence_depth_model.joblib") ].

Section Deployment.

(** The Azure ML workspace and whatever else the calls below change. *)
Context {world : Type}.
(** The client that [MLClient(...)] builds. *)
Context {client : Type}.
(** How the platform joins a directory and a file name. *)
Variable join : str -> str -> str.
(** [os.path.exists]; the model files are not touched during the run. *)
Variable os_path_exists : str -> bool.
(** [MLClient(credential, subscription_id, resource_group, workspace)] with
    the browser credential of the script. *)
Variable MLClient : str -> str -> str -> M world client.
(** [ml_client.models.create_or_update(Model(name, path, description))] *)
Variable models_create_or_update :
  client -> str -> str -> str -> M world registered.
(** [ml_client.environments.create_or_update(
       Environment(name, conda_file, image, description))] *)
Variable environments_create_or_update :
  client -> str -> str -> str -> str -> M world registered.
(** [json.dump(config, f, indent=2)] into the file opened at a path. *)
Variable write_json : str -> pyval -> M world unit.

(** Initialize Azure ML client using browser-based authentication. *)
Definition get_ml_client (subscription resource_grp workspace : str)
    : M world client :=
  MLClient subscription resource_grp workspace.

(** Register a model in Azure ML (the two printed lines are left out). *)
Definition register_model (ml_client : client) (model_name model_path : str)
    : M world registered :=
  models_create_or_update ml_client model_name model_path
    (py "FCS " ++ model_name
       ++ py " classifier for Future Context Snapshot system").

(** Create a conda environment for scoring (the two printed lines are left
    out). *)
Definition create_environment (ml_client : client) (env_name : str)
    : M world registered :=
  environments_create_or_update ml_client env_name (py "conda.yaml")
    (py "mcr.microsoft.com/azureml/openmpi4.1.0-ubuntu20.04:latest")
    (py "Environment for FCS classifiers").

(** The loop of [main] over the models still to do, with the dict of the
    models registered so far. *)
Fixpoint register_models (ml_client : client) (dir : str)
    (todo : list (str * str)) (registered_models : gmap str pyval)
    : M world (gmap str pyval) :=
  match todo with
  | [] => ret registered_models
  | (model_name, model_file) :: todo =>
      let model_path := join dir model_file in
      if negb (os_path_exists model_path) then
        register_models ml_client dir todo registered_models
      else
        model <- register_model ml_client model_name model_path ;;
        register_models ml_client dir todo
          (<[ model_name :=
                PyDict {[ py "name" := name model;
                          py "version" := version model;
                          py "id" := id model ]} ]> registered_models)
  end.

(** [main] after the parsing of the command line, without what it prints.
    The script returns nothing; the configuration that it has written is
    returned here. *)
Definition main (args : arguments) : M world pyval :=
  ml_client <-
    get_ml_client (subscription_id args) (resource_group args)
      (workspace_name args) ;;
  env <- create_environment ml_client (py "fcs-classifier-env") ;;
  registered_models <-
    register_models ml_client (models_dir args) models_info ∅ ;;
  let config_path := join (models_dir args) (py "azure_models_config.json") in
  let config :=
    PyDict
      {[ py "workspace" := PyStr (workspace_name args);
         py "resource_group" := PyStr (resource_group args);
         py "subscription_id" := PyStr (subscription_id args);
         py "environment" :=
           PyDict {[ py "name" := name env; py "version" := version env ]};
         py "models" := PyDict registered_models ]} in
  _ <- write_json config_path config ;;
  ret config.

End Deployment.
End deploy_models.

(** ** The three gates side by side *)

Inductive gate := decision_gravity | question_depth | consequence_depth.

(** The per-gate table of the specification: decision threshold, labels,
    name of the primary score and the three named sub-dimensions with their
    weights, in the order in which the jitters are drawn. *)
Definition threshold (g : gate) : Q :=
  match g with
  | decision_gravity => 0.5
  | question_depth => 0.6
  | consequence_depth => 0.5
  end.

Definition pass_label (g : gate) : str :=
  match g with
  | decision_gravity => py "PROCEED"
  | question_depth => py "PROCEED"
  | consequence_depth => py "APPROVE"
  end.

Definition fail_label (g : gate) : str :=
  match g with
  | decision_gravity => py "REFUSE"
  | question_depth => py "REJECT"
  | consequence_depth => py "TERMINATE"
  end.

Definition score_field (g : gate) : str :=
  match g with
  | decision_gravity => py "gravity_score"
  | question_depth => py "depth_score"
  | consequence_depth => py "consequence_depth_score"
  end.

Definition dimension_weights (g : gate) : list (str * Q) :=
  match g with
  | decision_gravity =>
      [(py "irreversibility", 0.95); (py "life_impact", 0.98);
       (py "temporal_consequence", 0.92)]
  | question_depth =>
      [(py "specificity", 0.95); (py "introspective_depth", 0.98);
       (py "non_leading", 0.92)]
  | consequence_depth =>
      [(py "emotional_specificity", 0.95); (py "concrete_reasoning", 0.92);
       (py "narrative_depth", 0.98)]
  end.

(** Field [k] of the dict that a run returned. *)
Definition field {S} (k : str) (out : result pyval * S) : option pyval :=
  match fst out with
  | Ok (PyDict d) => d !! k
  | _ => None
  end.

(** Entry [k] of the nested [dimensions] dict that a run returned. *)
Definition dimension {S} (k : str) (out : result pyval * S) : option pyval :=
  match field (py "dimensions") out with
  | Some (PyDict dims) => dims !! k
  | _ => None
  end.

(** Every sub-dimension of the returned dict is within [tol] of the returned
    primary score times the weight of that dimension. *)
Definition dimensions_within {S} (tol : Q) (g : gate)
    (out : result pyval * S) : Prop :=
  exists score,
    field (score_field g) out = Some (PyFloat (Fin score)) /\
    forall name w, In (name, w) (dimension_weights g) ->
      exists x, dimension name out = Some (PyFloat (Fin x)) /\
                score * w - tol <= x <= score * w + tol.

Section Gates.

Context {rng : Type}.
Variable unicode_lower : str -> str.
Variable json_loads : str -> result pyval.
(** Each endpoint loads its own model. *)
Variable predict_proba : gate -> pyval -> result (Q * Q).
Variable uniform : Q -> Q -> rng -> Q * rng.

(** The [try] block of the endpoint of gate [g]. *)
Definition run_try_gate (g : gate) : str -> M rng pyval :=
  match g with
  | decision_gravity =>
      score_decision_gravity.run_try json_loads (predict_proba g) uniform
  | question_depth =>
      score_question_depth.run_try unicode_lower json_loads
        (predict_proba g) uniform
  | consequence_depth =>
      score_consequence_depth.run_try json_loads (predict_proba g) uniform
  end.

(** [run] of the endpoint of gate [g]. *)
Definition run_gate (g : gate) : str -> M rng pyval :=
  match g with
  | decision_gravity =>
      score_decision_gravity.run json_loads (predict_proba g) uniform
  | question_depth =>
      score_question_depth.run unicode_lower json_loads (predict_proba g)
        uniform
  | consequence_depth =>
      score_consequence_depth.run json_loads (predict_proba g) uniform
  end.

End Gates.

(** ** The start-up and the training helpers, gate by gate *)

Section Served.

Variable os_getenv : str -> option str.
Variable join : str -> str -> str.
Variable joblib_load : str -> result classifier.

(** [init] of the endpoint of gate [g]. *)
Definition init_gate (g : gate) : M (option classifier) unit :=
  match g with
  | decision_gravity =>
      score_decision_gravity.init os_getenv join joblib_load
  | question_depth =>
      score_question_depth.init os_getenv join joblib_load
  | consequence_depth =>
      score_consequence_depth.init os_getenv join joblib_load
  end.

End Served.

(** The file that [init] of gate [g] loads from the model directory. *)
Definition model_file (g : gate) : str :=
  match g with
  | decision_gravity => py "decision_gravity_model.joblib"
  | question_depth => py "question_depth_model.joblib"
  | consequence_depth => py "consequence_depth_model.joblib"
  end.

(** What [run] of gate [g] finds when it reads its global [model]. *)
Definition served_predict_proba (model : gate -> option classifier)
    (g : gate) : classifier :=
  match g with
  | decision_gravity =>
      score_decision_gravity.model_predict_proba (model g)
  | question_depth =>
      score_question_depth.model_predict_proba (model g)
  | consequence_depth =>
      score_consequence_depth.model_predict_proba (model g)
  end.

(** [get_gravity_score] or [get_depth_score] of the training script of
    gate [g]. *)
Definition get_score_gate (g : gate) : classifier -> str -> result pyval :=
  match g with
  | decision_gravity => train_decision_gravity.get_gravity_score
  | question_depth => train_question_depth.get_depth_score
  | consequence_depth => train_consequence_depth.get_depth_score
  end.

(** [create_binary_labels] of the training script of gate [g]. *)
Definition create_binary_labels_gate (g : gate)
    : list Q -> option Q -> list Z :=
  match g with
  | decision_gravity => train_decision_gravity.create_binary_labels
  | question_depth => train_question_depth.create_binary_labels
  | consequence_depth => train_consequence_depth.create_binary_labels
  end.

(** The entry that [load_training_data] of the question-depth script keeps
    for a parsed line with a rejection reason; [None] for a line without. *)
Definition rejection_entry (item : gmap str pyval) : option pyval :=
  match item !! py "rejection_reason", item !! py "text" with
  | Some reason, Some text =>
      if truthy reason then
        Some (PyDict {[ py "text" := text;
                        py "reason" := reason;
                        py "guidance" :=
                          default (PyStr []) (item !! py "guidance") ]})
      else None
  | _, _ => None
  end.

(** ** The rejection classifier as the specification words it

    Six rules in strict priority order, the first match winning: four
    marker rules on the lower-cased text, then the word-count rule, then the
    default.  This definition follows the specification, not the script; it
    is compared with [score_question_depth.detect_rejection_type] below. *)

Module RejectionClassifier.

Definition marker_rules : list (string * list string) :=
  [ ("advice_seeking", ["should i"; "what should"; "recommend"; "advise"]);
    ("predictive", ["will i"; "will it"; "what will"; "going to"]);
    ("leading", ["won't"; "isn't it"; "don't you think"; "right?"]);
    ("comparison", ["what if i had"; "other option"; "alternative"]) ].

(** Number of words: the positions where a non-whitespace code point
    starts the text or follows a whitespace one. *)
Fixpoint word_starts (after_space : bool) (s : str) : nat :=
  match s with
  | [] => 0
  | c :: s' =>
      (if negb (isspace c) && after_space then 1 else 0)
      + word_starts (isspace c) s'
  end.

Definition word_count (text : str) : nat := word_starts true text.

Definition matches (lowered : str) (rule : string * list string) : bool :=
  existsb (fun marker => contains (py marker) lowered) (snd rule).

Definition classify (unicode_lower : str -> str) (text : str) : str :=
  match find (matches (lower unicode_lower text)) marker_rules with
  | Some (code, _) => py code
  | None => if (word_count text <? 6)%nat then py "binary" else py "generic"
  end.

Definition reason_codes : list str :=
  [py "advice_seeking"; py "predictive"; py "leading"; py "comparison";
   py "binary"; py "generic"].

End RejectionClassifier.

(** ** A concrete runtime, for running the endpoints on examples *)

Module Demo.

(** The request body [{"text": "<text>"}]. *)
Definition request (text : string) : str :=
  py "{" ++ [34%N] ++ py "text" ++ [34%N] ++ py ": "
    ++ [34%N] ++ py text ++ [34%N] ++ py "}".

Fixpoint strip_prefix (p s : str) : option str :=
  match p, s with
  | [], _ => Some s
  | _ :: _, [] => None
  | a :: p', b :: s' => if (a =? b)%N then strip_prefix p' s' else None
  end.

Definition strip_suffix (p s : str) : option str :=
  option_map (@rev N) (strip_prefix (rev p) (rev s)).

Definition JSONDecodeError : exn :=
  Exception "JSONDecodeError"
    (py "Expecting value: line 1 column 1 (char 0)").

(** [json.loads] on the request bodies of the examples: [{}], [[]], [0]
    and [{"text": "<text>"}] for a text without quote or backslash.  Every
    other input is refused (the library accepts more). *)
Definition json_loads (raw : str) : result pyval :=
  if bool_decide (raw = py "{}") then Ok (PyDict ∅)
  else if bool_decide (raw = py "[]") then Ok (PyList [])
  else if bool_decide (raw = py "0") then Ok (PyInt 0)
  else
    match strip_prefix (py "{" ++ [34%N] ++ py "text" ++ [34%N] ++ py ": "
                          ++ [34%N]) raw with
    | Some rest =>
        match strip_suffix ([34%N] ++ py "}") rest with
        | Some text =>
            if forallb (fun c => negb ((c =? 34) || (c =? 92))%N) text
            then Ok (PyDict {[ py "text" := PyStr text ]})
            else Raise JSONDecodeError
        | None => Raise JSONDecodeError
        end
    | None => Raise JSONDecodeError
    end.

(** A stand-in classifier: the probability of the positive class is the
    length of the text in hundredths, capped at 1. The same stand-in
    serves the three gates. *)
Definition predict_proba (g : gate) (text : pyval) : result (Q * Q) :=
  match text with
  | PyStr s =>
      let p := Z.of_nat (Nat.min (length s) 100) # 100 in
      Ok (1 - p, p)
  | v => Raise (AttributeError v "lower")
  end.

(** A stand-in generator: the state counts the draws, and draw number [n]
    is the point [n mod 1000] thousandths of the way from [low] to
    [high]. *)
Definition uniform (low high : Q) (n : nat) : Q * nat :=
  (low + (high - low) * (Z.of_nat (n mod 1000) # 1000), S n).

Definition run_try (g : gate) : str -> M nat pyval :=
  run_try_gate (fun s => s) json_loads predict_proba uniform g.

Definition run (g : gate) : str -> M nat pyval :=
  run_gate (fun s => s) json_loads predict_proba uniform g.

(** The start-up of the examples: the model directory is [/models], paths
    are joined with a slash, and the three model files are there. *)
Definition os_getenv (name : str) : option str :=
  if bool_decide (name = py "AZUREML_MODEL_DIR") then Some (py "/models")
  else None.

Definition join (a b : str) : str := a ++ py "/" ++ b.

Definition FileNotFoundError (path : str) : exn :=
  Exception "FileNotFoundError"
    (py "[Errno 2] No such file or directory: '" ++ path ++ py "'").

Definition joblib_load (path : str) : result classifier :=
  if bool_decide (path = py "/models/decision_gravity_model.joblib")
  then Ok (predict_proba decision_gravity)
  else if bool_decide (path = py "/models/question_depth_model.joblib")
  then Ok (predict_proba question_depth)
  else if bool_decide (path = py "/models/consequence_depth_model.joblib")
  then Ok (predict_proba consequence_depth)
  else Raise (FileNotFoundError path).

(** The code points before the first quote, and those after it. *)
Fixpoint until_quote (s : str) : option (str * str) :=
  match s with
  | [] => None
  | c :: s' =>
      if (c =? 34)%N then Some ([], s')
      else match until_quote s' with
           | Some (before, after) => Some (c :: before, after)
           | None => None
           end
  end.

Definition digit (c : N) : option Z :=
  if ((48 <=? c) && (c <=? 57))%N then Some (Z.of_N c - 48)%Z else None.

(** A line of a label file: [{"text": "<text>", "score": 0.<dd>}], with
    [, "rejection_reason": "<reason>"] before the brace when [reason] is
    given. *)
Definition labelled (text : string) (hundredths : string)
    (reason : option string) : str :=
  py "{" ++ [34%N] ++ py "text" ++ [34%N] ++ py ": "
    ++ [34%N] ++ py text ++ [34%N]
    ++ py ", " ++ [34%N] ++ py "score" ++ [34%N] ++ py ": 0."
    ++ py hundredths
    ++ match reason with
       | Some r =>
           py ", " ++ [34%N] ++ py "rejection_reason" ++ [34%N] ++ py ": "
             ++ [34%N] ++ py r ++ [34%N]
       | None => []
       end
    ++ py "}".

(** [json.loads] on the lines of the label files of the examples: the
    lines that [labelled] writes, and the requests of [request], which lack
    a score.  Every other input is refused (the library accepts more). *)
Definition jsonl_loads (line : str) : result pyval :=
  match strip_prefix (py "{" ++ [34%N] ++ py "text" ++ [34%N] ++ py ": "
                        ++ [34%N]) line with
  | Some rest =>
      match until_quote rest with
      | Some (text, rest) =>
          if bool_decide (rest = py "}")
          then Ok (PyDict {[ py "text" := PyStr text ]})
          else
            match strip_prefix (py ", " ++ [34%N] ++ py "score" ++ [34%N]
                                  ++ py ": 0.") rest with
            | Some (d1 :: d2 :: rest) =>
                match digit d1, digit d2 with
                | Some a, Some b =>
                    let score := PyFloat (Fin ((10 * a + b) # 100)) in
                    if bool_decide (rest = py "}")
                    then Ok (PyDict {[ py "text" := PyStr text;
                                       py "score" := score ]})
                    else
                      match strip_prefix
                              (py ", " ++ [34%N] ++ py "rejection_reason"
                                 ++ [34%N] ++ py ": " ++ [34%N]) rest with
                      | Some rest =>
                          match until_quote rest with
                          | Some (reason, rest) =>
                              if bool_decide (rest = py "}")
                              then Ok (PyDict
                                         {[ py "text" := PyStr text;
                                            py "score" := score;
                                            py "rejection_reason" :=
                                              PyStr reason ]})
                              else Raise JSONDecodeError
                          | None => Raise JSONDecodeError
                          end
                      | None => Raise JSONDecodeError
                      end
                | _, _ => Raise JSONDecodeError
                end
            | _ => Raise JSONDecodeError
            end
      | None => Raise JSONDecodeError
      end
  | None => Raise JSONDecodeError
  end.

(** The wording of Python 3.11 for a subscript on a value that is not a
    dict. *)
Definition subscript_message (v : pyval) : str :=
  match v with
  | PyList _ => py "list indices must be integers or slices, not str"
  | PyStr _ => py "string indices must be integers, not 'str'"
  | _ => py ("'" ++ type_name v ++ "' object is not subscriptable")
  end.

(** [np.array] on a list of numbers: the list itself. *)
Definition np_array (scores : list pyval) : result (list pyval) := Ok scores.

(** A stand-in workspace: the state is the list of the names registered so
    far, every registration succeeds with version 1, and only the
    question-depth model has been trained. *)
Definition os_path_exists (path : str) : bool :=
  bool_decide (path = py "/models/question_depth_model.joblib").

Definition create_or_update (registered_name : str)
    : M (list str) deploy_models.registered :=
  fun log =>
    (Ok {| deploy_models.name := PyStr registered_name;
           deploy_models.version := PyStr (py "1");
           deploy_models.id := PyStr (py "azureml:/" ++ registered_name) |},
     log ++ [registered_name]).

Definition deploy (args : deploy_models.arguments) : M (list str) pyval :=
  deploy_models.main join os_path_exists
    (fun _ _ _ => ret tt)
    (fun _ model_name _ _ => create_or_update model_name)
    (fun _ env_name _ _ _ => create_or_update env_name)
    (fun _ _ => ret tt)
    args.

End Demo.

(** * Properties *)

(** ** Rounding *)

Section Numbers.

Lemma round_half_even_near (x : Q) :
  inject_Z (round_half_even x) - (1 # 2) <= x
  <= inject_Z (round_half_even x) + (1 # 2).
Proof.
  unfold round_half_even.
  pose proof (Qfloor_le x) as Hlo. pose proof (Qlt_floor x) as Hhi.
  rewrite inject_Z_plus in Hhi. change (inject_Z 1) with 1 in Hhi.
  destruct (Qcompare_spec (x - inject_Z (Qfloor x)) (1 # 2)) as [He|Hl|Hg].
  - destruct (Z.even (Qfloor x)).
    + lra.
    + rewrite inject_Z_plus. change (inject_Z 1) with 1. lra.
  - lra.
  - rewrite inject_Z_plus. change (inject_Z 1) with 1. lra.
Qed.

(** Rounding does not see how a rational is written. *)
Lemma round_half_even_proper (x y : Q) :
  x == y -> round_half_even x = round_half_even y.
Proof.
  intros E. unfold round_half_even. rewrite (Qfloor_comp x y E).
  assert (E' : x - inject_Z (Qfloor y) == y - inject_Z (Qfloor y))
    by (rewrite E; reflexivity).
  rewrite (Qcompare_comp _ _ E' (1 # 2) (1 # 2)) by reflexivity.
  reflexivity.
Qed.

Lemma round_3 (x : Q) : round x 3 = (round_half_even (x * 1000) # 1000).
Proof. reflexivity. Qed.

Lemma round_3_proper (x y : Q) : x == y -> round x 3 = round y 3.
Proof.
  intros E. rewrite !round_3.
  rewrite (round_half_even_proper (x * 1000) (y * 1000)); [reflexivity|].
  rewrite E. reflexivity.
Qed.

(** [round(x, 3)] moves [x] by at most half a thousandth. *)
Lemma round_3_near (x : Q) : round x 3 - 0.0005 <= x <= round x 3 + 0.0005.
Proof.
  rewrite round_3.
  pose proof (round_half_even_near (x * 1000)) as H.
  assert (E : (round_half_even (x * 1000) # 1000) * 1000
               == inject_Z (round_half_even (x * 1000))).
  { unfold Qeq, Qmult, inject_Z. simpl. lia. }
  set (r := inject_Z (round_half_even (x * 1000))) in *.
  set (q := round_half_even (x * 1000) # 1000) in *.
  lra.
Qed.

(** Bounds that are whole thousandths survive the rounding. *)
Lemma round_3_between (x : Q) (lo hi : Z) :
  inject_Z lo <= x * 1000 <= inject_Z hi ->
  (lo # 1000) <= round x 3 <= (hi # 1000).
Proof.
  intros [Hlo Hhi]. rewrite round_3.
  pose proof (round_half_even_near (x * 1000)) as [H1 H2].
  set (n := round_half_even (x * 1000)) in *.
  assert (lo <= n <= hi)%Z.
  { split.
    - assert (H : inject_Z (lo + -1) < inject_Z n).
      { rewrite inject_Z_plus. change (inject_Z (-1)) with (-1 # 1). lra. }
      rewrite <- Zlt_Qlt in H. lia.
    - assert (H : inject_Z n < inject_Z (hi + 1)).
      { rewrite inject_Z_plus. change (inject_Z 1) with 1. lra. }
      rewrite <- Zlt_Qlt in H. lia. }
  unfold Qle. simpl. lia.
Qed.

Lemma max_is_Qmax (p0 p1 : Q) : max (p0, p1) == Qmax p0 p1.
Proof.
  unfold max. destruct (Qle_bool p1 p0) eqn:E.
  - apply Qle_bool_iff in E. symmetry. apply Q.max_l. exact E.
  - assert (~ p1 <= p0) as N by (rewrite <- Qle_bool_iff, E; discriminate).
    symmetry. apply Q.max_r. lra.
Qed.

End Numbers.

(** ** Words and markers *)

Section Words.

Lemma length_split_from (cur s : str) :
  length (split_from cur s) =
  ((match cur with [] => 0 | _ :: _ => 1 end)
   + RejectionClassifier.word_starts
       (match cur with [] => true | _ :: _ => false end) s)%nat.
Proof.
  revert cur. induction s as [|c s IH]; intros cur; simpl.
  - destruct cur; simpl; lia.
  - destruct (isspace c); simpl.
    + destruct cur; simpl; rewrite IH; simpl; lia.
    + rewrite IH. destruct cur; simpl; lia.
Qed.

(** [len(text.split())] is the number of words of [text]. *)
Lemma length_split (text : str) :
  length (split text) = RejectionClassifier.word_count text.
Proof. unfold split. rewrite length_split_from. reflexivity. Qed.

End Words.

(** ** The rejection classifier *)

Section Rejection.

Variable unicode_lower : str -> str.

Local Abbreviation detect_rejection_type :=
  (score_question_depth.detect_rejection_type unicode_lower).

Lemma detect_rejection_type_classify (text : str) :
  detect_rejection_type text = RejectionClassifier.classify unicode_lower text.
Proof.
  unfold score_question_depth.detect_rejection_type, any,
    RejectionClassifier.classify, RejectionClassifier.marker_rules.
  cbn [find]. unfold RejectionClassifier.matches. cbn [snd existsb].
  rewrite length_split.
  repeat match goal with
         | |- context [if ?b then _ else _] => destruct b
         end; reflexivity.
Qed.

(** The reason code is one of the six, whatever the text. *)
Lemma detect_rejection_type_code (text : str) :
  In (detect_rejection_type text) RejectionClassifier.reason_codes.
Proof.
  unfold score_question_depth.detect_rejection_type,
    RejectionClassifier.reason_codes.
  repeat match goal with
         | |- context [if ?b then _ else _] => destruct b
         end; simpl; tauto.
Qed.

Lemma reason_code_has_guidance (code : str) :
  In code RejectionClassifier.reason_codes ->
  is_Some (score_question_depth.REJECTION_GUIDANCE !! code).
Proof.
  unfold RejectionClassifier.reason_codes. simpl.
  intros [<-|[<-|[<-|[<-|[<-|[<-|[]]]]]]]; eexists; reflexivity.
Qed.

(** C4. [detect_rejection_type] is the six-rule classifier of the
    specification: on every text it returns what the rules, tried in their
    priority order on the lower-cased text, return.  A short question
    that asks for advice and ends in [right?] is [advice_seeking], and the
    one-word text [ok] is [binary]. *)
Theorem detect_rejection_type_six_rules :
  (forall text : str,
     detect_rejection_type text
     = RejectionClassifier.classify unicode_lower text)
  /\ detect_rejection_type (py "Should I do this right?")
     = py "advice_seeking"
  /\ detect_rejection_type (py "ok") = py "binary".
Proof.
  split; [exact detect_rejection_type_classify|].
  split; reflexivity.
Qed.

End Rejection.

(** ** The endpoints *)

Lemma label_eqb_refl (l : str) : bool_decide (l = l) = true.
Proof. by apply bool_decide_eq_true_2. Qed.

Lemma PROCEED_is_not_REJECT : bool_decide (py "PROCEED" = py "REJECT") = false.
Proof. reflexivity. Qed.

Lemma guidance_generic :
  score_question_depth.REJECTION_GUIDANCE !! py "generic"
  = Some (py "This question is too vague. Ask about specific aspects of your future experience.").
Proof. reflexivity. Qed.

(** Unfold an endpoint down to the calls of its imports. *)
Ltac run_unfold :=
  unfold run_gate, run_try_gate,
    score_decision_gravity.run, score_question_depth.run,
    score_consequence_depth.run, score_decision_gravity.run_try,
    score_question_depth.run_try, score_consequence_depth.run_try,
    score_decision_gravity.np_random_uniform,
    score_question_depth.np_random_uniform,
    score_consequence_depth.np_random_uniform,
    try_except, bind, lift, ret, dimension, field in *.

Ltac run_reduce :=
  cbv beta iota zeta
    delta [fst snd negb default from_option id get on_str getitem] in *.

(** One step of an endpoint: use what is known about the call that comes
    next, or name the jitter it draws. *)
Ltac run_step :=
  run_reduce;
  match goal with
  | H : ?f ?r = _ |- context [?f ?r] => rewrite H
  | H : ?f ?g ?r = _ |- context [?f ?g ?r] => rewrite H
  | |- context [bool_decide (?l = ?l)] => rewrite (label_eqb_refl l)
  | |- context [bool_decide (py "PROCEED" = py "REJECT")] =>
      rewrite PROCEED_is_not_REJECT
  | |- context [score_question_depth.REJECTION_GUIDANCE !! py "generic"] =>
      rewrite guidance_generic
  | |- context [let '(_, _) := ?u ?a ?b ?s in _] =>
      let j := fresh "j" in
      let s' := fresh "s" in
      destruct (u a b s) as [j s'] eqn:?
  end.

Ltac run_eval := run_unfold; repeat run_step; run_reduce.

(** One step of an endpoint of which nothing is known: split on the outcome
    of the call that comes next. *)
Ltac run_case :=
  run_reduce;
  match goal with
  | |- context [truthy (PyStr [])] => change (truthy (PyStr [])) with false
  | |- context [match ?v with
                | PyNone => _ | PyBool _ => _ | PyInt _ => _ | PyFloat _ => _
                | PyStr _ => _ | PyList _ => _ | PyDict _ => _
                end] => is_var v; destruct v
  | |- context [@lookup _ _ (gmap _ _) _ (py "text") ?d] =>
      is_var d; destruct (d !! py "text") eqn:?
  | |- context [truthy ?t] => destruct (truthy t) eqn:?
  | |- context [if Qle_bool ?a ?b then _ else _] =>
      destruct (Qle_bool a b) eqn:?
  | |- context [match ?f ?r with Ok _ => _ | Raise _ => _ end] =>
      destruct (f r) as [?|?] eqn:?
  | |- context [match ?f ?g ?r with Ok _ => _ | Raise _ => _ end] =>
      destruct (f g r) as [[? ?]|?] eqn:?
  end.

Ltac run_cases := run_unfold; repeat first [run_step | run_case]; run_reduce.

(** Read the fields of the dict literals in the goal. *)
Ltac dict_lookup :=
  repeat match goal with
         | |- context [@lookup _ _ (gmap _ _) _ ?k ?m] =>
             let v := eval hnf in (m !! k) in
             match v with Some _ => idtac | None => idtac end;
             progress change (m !! k) with v
         end.

(** For each of the three sub-dimensions of gate [g]: its value is the
    rounding of the weighted score plus its jitter, and rounding moves a
    number by at most 0.0005; the rest is linear arithmetic. *)
Ltac dimension_cases g Hin Hdims :=
  destruct g; cbv [dimension_weights] in Hin, Hdims;
  repeat match goal with
         | H : Forall2 _ (_ :: _) _ |- _ =>
             apply Forall2_cons_1 in H; cbv [fst snd] in H;
             destruct H as [? H]
         end;
  simpl in Hin;
  destruct Hin as [[= <- <-]|[[= <- <-]|[[= <- <-]|[]]]];
  (eexists; split; [eassumption|]);
  match goal with
  | |- _ <= round ?x 3 <= _ => pose proof (round_3_near x)
  end; lra.

Section Endpoints.

Context {rng : Type}.
Variable unicode_lower : str -> str.
Variable json_loads : str -> result pyval.
Variable predict_proba : gate -> pyval -> result (Q * Q).
Variable uniform : Q -> Q -> rng -> Q * rng.

Local Abbreviation run :=
  (run_gate unicode_lower json_loads predict_proba uniform).
Local Abbreviation run_try :=
  (run_try_gate unicode_lower json_loads predict_proba uniform).

(** The decision of a scored request is the comparison of the positive
    class probability with the threshold. *)
Lemma scored_decision (g : gate) (raw : str) (d : gmap str pyval)
    (text : pyval) (p0 p : Q) (s : rng) :
  json_loads raw = Ok (PyDict d) ->
  d !! py "text" = Some text ->
  truthy text = true ->
  predict_proba g text = Ok (p0, p) ->
  field (py "gate_decision") (run g raw s)
  = Some (PyStr (if Qle_bool (threshold g) p
                 then pass_label g else fail_label g)).
Proof.
  intros Hloads Htext Htruthy Hproba.
  destruct (Qle_bool (threshold g) p) eqn:Hle;
    destruct g; cbv [threshold] in Hle; try destruct text;
    run_eval; dict_lookup; reflexivity.
Qed.

Lemma pass_is_not_fail (g : gate) : pass_label g <> fail_label g.
Proof. destruct g; discriminate. Qed.

(** C1. For every gate and every request whose text is present and not
    empty, with [p] the probability that the classifier gives to the
    positive class: the returned [gate_decision] is the pass label of the
    gate exactly when [p] is at least the threshold of the gate; a [p]
    equal to the threshold passes. *)
Theorem threshold_decides_gate (g : gate) (raw : str) (d : gmap str pyval)
    (text : pyval) (p0 p : Q) (s : rng) :
  json_loads raw = Ok (PyDict d) ->
  d !! py "text" = Some text ->
  truthy text = true ->
  predict_proba g text = Ok (p0, p) ->
  (field (py "gate_decision") (run g raw s) = Some (PyStr (pass_label g))
   <-> threshold g <= p)
  /\ (p == threshold g ->
      field (py "gate_decision") (run g raw s)
      = Some (PyStr (pass_label g))).
Proof.
  intros Hloads Htext Htruthy Hproba.
  rewrite (scored_decision g raw d text p0 p s) by assumption.
  rewrite <- Qle_bool_iff.
  split.
  - destruct (Qle_bool (threshold g) p); split; try done.
    intros [= E]. by destruct (pass_is_not_fail g).
  - intros E. assert (Qle_bool (threshold g) p = true) as ->; [|done].
    apply Qle_bool_iff. rewrite E. apply Qle_refl.
Qed.

Lemma run_catches (g : gate) (raw : str) (s s' : rng) (e : exn) :
  run_try g raw s = (Raise e, s') ->
  run g raw s
  = (Ok (PyDict {[ py "error" := PyStr (exn_str e);
                   py "gate_decision" := PyStr (fail_label g) ]}), s').
Proof.
  destruct g; cbv [run_gate run_try_gate]; intros H;
    unfold score_decision_gravity.run, score_question_depth.run,
      score_consequence_depth.run, try_except;
    rewrite H; reflexivity.
Qed.

(** Every run returns a dict that carries a decision of the gate. *)
Lemma run_returns (g : gate) (raw : str) (s : rng) :
  exists (d : gmap str pyval) (s' : rng),
    run g raw s = (Ok (PyDict d), s')
    /\ (d !! py "gate_decision" = Some (PyStr (pass_label g))
        \/ d !! py "gate_decision" = Some (PyStr (fail_label g))).
Proof.
  destruct g; run_cases;
    (eexists; eexists; split; [reflexivity|]);
    dict_lookup; cbv [pass_label fail_label]; auto.
Qed.

(** The answer to a failure with exception [e]. *)
Local Abbreviation error_answer g e :=
  (PyDict {[ py "error" := PyStr (exn_str e);
             py "gate_decision" := PyStr (fail_label g) ]}).

(** The steps of [run] that can raise, one by one: the parse of the
    request, the [get] on what was parsed, the call of the model, and, for
    a rejected question, the lower-casing of the text. *)
Lemma run_loads_raises (g : gate) (raw : str) (s : rng) (e : exn) :
  json_loads raw = Raise e ->
  run g raw s = (Ok (error_answer g e), s).
Proof. intros Hloads. destruct g; run_eval; reflexivity. Qed.

Lemma run_not_an_object (g : gate) (raw : str) (s : rng) (data : pyval) :
  json_loads raw = Ok data ->
  (forall d : gmap str pyval, data <> PyDict d) ->
  run g raw s = (Ok (error_answer g (AttributeError data "get")), s).
Proof.
  intros Hloads Hdata.
  destruct data; try (by destruct (Hdata d));
    destruct g; run_eval; reflexivity.
Qed.

Lemma run_model_raises (g : gate) (raw : str) (s : rng)
    (d : gmap str pyval) (text : pyval) (e : exn) :
  json_loads raw = Ok (PyDict d) ->
  d !! py "text" = Some text ->
  truthy text = true ->
  predict_proba g text = Raise e ->
  run g raw s = (Ok (error_answer g e), s).
Proof.
  intros Hloads Htext Htruthy Hproba. destruct g; run_eval; reflexivity.
Qed.

Lemma run_lower_raises (raw : str) (s : rng) (d : gmap str pyval)
    (text : pyval) (p0 p : Q) :
  json_loads raw = Ok (PyDict d) ->
  d !! py "text" = Some text ->
  truthy text = true ->
  (forall t : str, text <> PyStr t) ->
  predict_proba question_depth text = Ok (p0, p) ->
  ~ 0.6 <= p ->
  run question_depth raw s
  = (Ok (error_answer question_depth (AttributeError text "lower")), s).
Proof.
  intros Hloads Htext Htruthy Hstr Hproba Hlow.
  assert (Hle : Qle_bool 0.6 p = false).
  { destruct (Qle_bool 0.6 p) eqn:E; [|reflexivity].
    apply Qle_bool_iff in E. contradiction. }
  destruct text; try (by destruct (Hstr s0)); run_eval; reflexivity.
Qed.

(** An answer that reports an error carries the fail label. *)
Lemma run_error_fails (g : gate) (raw : str) (s s' : rng)
    (d : gmap str pyval) :
  run g raw s = (Ok (PyDict d), s') ->
  is_Some (d !! py "error") ->
  d !! py "gate_decision" = Some (PyStr (fail_label g)).
Proof.
  destruct g; run_cases; intros [= <- <-]; dict_lookup;
    intros [? ?]; try discriminate; reflexivity.
Qed.

(** A request without usable text is answered with the fail label. *)
Lemma run_no_text_fails (g : gate) (raw : str) (s : rng)
    (d : gmap str pyval) :
  json_loads raw = Ok (PyDict d) ->
  truthy (default (PyStr []) (d !! py "text")) = false ->
  field (py "error") (run g raw s) = Some (PyStr (py "No text provided"))
  /\ field (py "gate_decision") (run g raw s)
     = Some (PyStr (fail_label g)).
Proof.
  intros Hloads Hfalsy. unfold default in Hfalsy.
  destruct g; run_eval; dict_lookup; split; reflexivity.
Qed.

(** The [try] block raises in these ways only. *)
Lemma run_try_raises_at_a_step (g : gate) (raw : str) (s s' : rng)
    (e : exn) :
  run_try g raw s = (Raise e, s') ->
  json_loads raw = Raise e
  \/ (exists data,
        json_loads raw = Ok data
        /\ (forall d : gmap str pyval, data <> PyDict d)
        /\ e = AttributeError data "get")
  \/ (exists (d : gmap str pyval) (text : pyval),
        json_loads raw = Ok (PyDict d)
        /\ d !! py "text" = Some text
        /\ truthy text = true
        /\ (predict_proba g text = Raise e
            \/ g = question_depth
               /\ (forall t : str, text <> PyStr t)
               /\ (exists p0 p, predict_proba g text = Ok (p0, p)
                                /\ ~ 0.6 <= p)
               /\ e = AttributeError text "lower")).
Proof.
  destruct g; run_cases; intros [= <-]; subst;
    repeat match goal with
           | a : (Q * Q)%type |- _ => destruct a; cbv beta iota in *
           end;
    first
      [ by left
      | right; left; eexists; split; [reflexivity|]; by split
      | right; right; do 2 eexists; split; [reflexivity|];
        split; [eassumption|]; split; [assumption|];
        first
          [ by left
          | right; split; [reflexivity|]; split; [done|];
            split; [|reflexivity];
            do 2 eexists; split; [eassumption|];
            intros H%Qle_bool_iff; congruence ] ].
Qed.

(** C2. For every gate and every raw input, [run] returns a dict and does
    not raise; when a step of the evaluation raises, the dict holds the
    message of the exception under [error] and the fail label of the gate
    under [gate_decision].  The steps that can raise are the parse of the
    request, the [get] on a parsed value that is not an object, the call
    of the model and, for a question that is rejected, the lower-casing of
    a text that is not a string; each is answered with its own exception,
    the generator untouched.  A missing or empty text and every answer
    that reports an error carry the fail label. *)
Theorem run_never_raises (g : gate) (raw : str) (s : rng) :
  (exists (d : gmap str pyval) (s' : rng),
     run g raw s = (Ok (PyDict d), s')
     /\ (d !! py "gate_decision" = Some (PyStr (pass_label g))
         \/ d !! py "gate_decision" = Some (PyStr (fail_label g)))
     /\ (is_Some (d !! py "error") ->
         d !! py "gate_decision" = Some (PyStr (fail_label g))))
  /\ (forall (e : exn) (s' : rng),
        run_try g raw s = (Raise e, s') ->
        run g raw s
        = (Ok (PyDict {[ py "error" := PyStr (exn_str e);
                         py "gate_decision" := PyStr (fail_label g) ]}),
           s'))
  /\ (forall e : exn,
        json_loads raw = Raise e ->
        run g raw s
        = (Ok (PyDict {[ py "error" := PyStr (exn_str e);
                         py "gate_decision" := PyStr (fail_label g) ]}),
           s))
  /\ (forall data : pyval,
        json_loads raw = Ok data ->
        (forall d : gmap str pyval, data <> PyDict d) ->
        run g raw s
        = (Ok (PyDict
                 {[ py "error" :=
                      PyStr (exn_str (AttributeError data "get"));
                    py "gate_decision" := PyStr (fail_label g) ]}),
           s))
  /\ (forall (d : gmap str pyval) (text : pyval) (e : exn),
        json_loads raw = Ok (PyDict d) ->
        d !! py "text" = Some text ->
        truthy text = true ->
        predict_proba g text = Raise e ->
        run g raw s
        = (Ok (PyDict {[ py "error" := PyStr (exn_str e);
                         py "gate_decision" := PyStr (fail_label g) ]}),
           s))
  /\ (forall (d : gmap str pyval) (text : pyval) (p0 p : Q),
        g = question_depth ->
        json_loads raw = Ok (PyDict d) ->
        d !! py "text" = Some text ->
        truthy text = true ->
        (forall t : str, text <> PyStr t) ->
        predict_proba g text = Ok (p0, p) ->
        ~ 0.6 <= p ->
        run g raw s
        = (Ok (PyDict
                 {[ py "error" :=
                      PyStr (exn_str (AttributeError text "lower"));
                    py "gate_decision" := PyStr (fail_label g) ]}),
           s))
  /\ (forall d : gmap str pyval,
        json_loads raw = Ok (PyDict d) ->
        truthy (default (PyStr []) (d !! py "text")) = false ->
        field (py "error") (run g raw s)
        = Some (PyStr (py "No text provided"))
        /\ field (py "gate_decision") (run g raw s)
           = Some (PyStr (fail_label g)))
  /\ (forall (e : exn) (s' : rng),
        run_try g raw s = (Raise e, s') ->
        json_loads raw = Raise e
        \/ (exists data,
              json_loads raw = Ok data
              /\ (forall d : gmap str pyval, data <> PyDict d)
              /\ e = AttributeError data "get")
        \/ (exists (d : gmap str pyval) (text : pyval),
              json_loads raw = Ok (PyDict d)
              /\ d !! py "text" = Some text
              /\ truthy text = true
              /\ (predict_proba g text = Raise e
                  \/ g = question_depth
                     /\ (forall t : str, text <> PyStr t)
                     /\ (exists p0 p, predict_proba g text = Ok (p0, p)
                                      /\ ~ 0.6 <= p)
                     /\ e = AttributeError text "lower"))).
Proof.
  split.
  { destruct (run_returns g raw s) as (d & s' & Hrun & Hdec).
    exists d, s'. split; [exact Hrun|]. split; [exact Hdec|].
    by apply (run_error_fails g raw s s'). }
  split; [intros e s' H; by apply run_catches|].
  split; [intros e; apply run_loads_raises|].
  split; [intros data; apply run_not_an_object|].
  split; [intros d text e; apply run_model_raises|].
  split.
  { intros d text p0 p ->. apply run_lower_raises. }
  split; [|intros e s'; apply run_try_raises_at_a_step].
  intros d. apply run_no_text_fails.
Qed.

(** The result of a request without usable text. *)
Lemma run_no_text (g : gate) (raw : str) (d : gmap str pyval) (s : rng) :
  json_loads raw = Ok (PyDict d) ->
  truthy (default (PyStr []) (d !! py "text")) = false ->
  run g raw s
  = (Ok (PyDict
           match g with
           | question_depth =>
               {[ py "error" := PyStr (py "No text provided");
                  py "gate_decision" := PyStr (py "REJECT");
                  py "guidance" := PyStr (py "Please provide a question.") ]}
           | _ =>
               {[ py "error" := PyStr (py "No text provided");
                  py "gate_decision" := PyStr (fail_label g) ]}
           end), s).
Proof.
  intros Hloads Hfalsy. unfold default in Hfalsy.
  destruct g; run_eval; reflexivity.
Qed.

(** A request with a non-empty string that the model scores is answered
    with a score and without an error. *)
Lemma run_scores_text (g : gate) (raw : str) (d : gmap str pyval)
    (t : str) (proba : Q * Q) (s : rng) :
  json_loads raw = Ok (PyDict d) ->
  d !! py "text" = Some (PyStr t) ->
  t <> [] ->
  predict_proba g (PyStr t) = Ok proba ->
  field (py "error") (run g raw s) = None
  /\ field (score_field g) (run g raw s)
     = Some (PyFloat (Fin (round (snd proba) 3))).
Proof.
  intros Hloads Htext Ht Hproba.
  assert (Htruthy : truthy (PyStr t) = true) by (by destruct t).
  destruct proba as [p0 p].
  destruct g; run_cases; dict_lookup; split; reflexivity.
Qed.

(** C3. For every gate, when the parsed request is an object without a
    [text] key, or with a [text] that is empty (or any other value that
    Python counts as false), [run] returns exactly the error dict: [error]
    is [No text provided], [gate_decision] is the fail label, the
    question-depth gate adds its [guidance], and no score, dimensions or
    confidence is present.  Nothing else is checked: every non-empty string
    that the model scores is answered with its score. *)
Theorem missing_text_is_refused (g : gate) (raw : str) (d : gmap str pyval)
    (s : rng) :
  json_loads raw = Ok (PyDict d) ->
  ((d !! py "text" = None
    \/ exists v, d !! py "text" = Some v /\ truthy v = false) ->
   run g raw s
   = (Ok (PyDict
            match g with
            | question_depth =>
                {[ py "error" := PyStr (py "No text provided");
                   py "gate_decision" := PyStr (py "REJECT");
                   py "guidance" := PyStr (py "Please provide a question.") ]}
            | _ =>
                {[ py "error" := PyStr (py "No text provided");
                   py "gate_decision" := PyStr (fail_label g) ]}
            end), s)
   /\ field (score_field g) (run g raw s) = None
   /\ field (py "dimensions") (run g raw s) = None
   /\ field (py "confidence") (run g raw s) = None)
  /\ (forall (t : str) (proba : Q * Q),
        d !! py "text" = Some (PyStr t) ->
        t <> [] ->
        predict_proba g (PyStr t) = Ok proba ->
        field (py "error") (run g raw s) = None
        /\ field (score_field g) (run g raw s)
           = Some (PyFloat (Fin (round (snd proba) 3)))).
Proof.
  intros Hloads. split.
  - intros Hmissing.
    assert (Hfalsy : truthy (default (PyStr []) (d !! py "text")) = false).
    { destruct Hmissing as [->|(v & -> & Hv)]; [reflexivity|exact Hv]. }
    rewrite (run_no_text g raw d s Hloads Hfalsy).
    destruct g; repeat split; reflexivity.
  - intros t proba Htext Ht Hproba.
    by apply (run_scores_text g raw d t proba s).
Qed.

(** The rejection fields of a scored question. *)
Lemma question_rejection_fields (raw : str) (d : gmap str pyval) (t : str)
    (p0 p : Q) (s : rng) :
  json_loads raw = Ok (PyDict d) ->
  d !! py "text" = Some (PyStr t) ->
  t <> [] ->
  predict_proba question_depth (PyStr t) = Ok (p0, p) ->
  let out := run question_depth raw s in
  let code := score_question_depth.detect_rejection_type unicode_lower t in
  field (py "rejection_type") out
  = Some (if Qle_bool 0.6 p then PyNone else PyStr code)
  /\ field (py "guidance") out
     = Some (if Qle_bool 0.6 p then PyNone
             else match score_question_depth.REJECTION_GUIDANCE !! code with
                  | Some text => PyStr text
                  | None => PyStr (py "This question is too vague. Ask about specific aspects of your future experience.")
                  end).
Proof.
  intros Hloads Htext Ht Hproba.
  assert (Htruthy : truthy (PyStr t) = true) by (by destruct t).
  cbv zeta.
  destruct (Qle_bool 0.6 p) eqn:Hle; run_eval; dict_lookup.
  - split; reflexivity.
  - split; [reflexivity|].
    by destruct (score_question_depth.REJECTION_GUIDANCE
                   !! score_question_depth.detect_rejection_type
                        unicode_lower t).
Qed.

(** C5. For the question-depth gate and a non-empty text: a [REJECT]
    comes with the reason code that [detect_rejection_type] gives for the
    text and with the canned guidance of that code; a [PROCEED] comes with
    [rejection_type] and [guidance] both [None]; there is no third
    decision.  [Will I be happy?] scored below 0.6 is rejected as
    [predictive] with the guidance of [predictive]. *)
Theorem rejection_info_follows_decision (raw : str) (d : gmap str pyval)
    (t : str) (p0 p : Q) (s : rng) :
  json_loads raw = Ok (PyDict d) ->
  d !! py "text" = Some (PyStr t) ->
  t <> [] ->
  predict_proba question_depth (PyStr t) = Ok (p0, p) ->
  let out := run question_depth raw s in
  let code := score_question_depth.detect_rejection_type unicode_lower t in
  (field (py "gate_decision") out = Some (PyStr (py "REJECT")) ->
   field (py "rejection_type") out = Some (PyStr code)
   /\ exists guidance,
        score_question_depth.REJECTION_GUIDANCE !! code = Some guidance
        /\ field (py "guidance") out = Some (PyStr guidance))
  /\ (field (py "gate_decision") out = Some (PyStr (py "PROCEED")) ->
      field (py "rejection_type") out = Some PyNone
      /\ field (py "guidance") out = Some PyNone)
  /\ (field (py "gate_decision") out = Some (PyStr (py "REJECT"))
      \/ field (py "gate_decision") out = Some (PyStr (py "PROCEED")))
  /\ (t = py "Will I be happy?" -> p < 0.6 ->
      field (py "gate_decision") out = Some (PyStr (py "REJECT"))
      /\ field (py "rejection_type") out = Some (PyStr (py "predictive"))
      /\ field (py "guidance") out
         = Some (PyStr (py "This question asks for predictions. Ask about one possible future experience."))).
Proof.
  intros Hloads Htext Ht Hproba out code.
  assert (Htruthy : truthy (PyStr t) = true) by (by destruct t).
  pose proof (scored_decision question_depth raw d (PyStr t) p0 p s
                Hloads Htext Htruthy Hproba) as Hdec.
  pose proof (question_rejection_fields raw d t p0 p s
                Hloads Htext Ht Hproba) as [Hcode Hguid].
  fold out in Hdec. cbv zeta in Hcode, Hguid. fold out code in Hcode, Hguid.
  cbv [threshold pass_label fail_label] in Hdec.
  rewrite Hdec, Hcode, Hguid.
  destruct (reason_code_has_guidance code
              (detect_rejection_type_code unicode_lower t)) as [guidance Hg].
  rewrite Hg.
  destruct (Qle_bool 0.6 p) eqn:Hle.
  - split; [intros [=]|]. split; [done|]. split; [by right|].
    intros _ Hlt. apply Qle_bool_iff in Hle. lra.
  - split; [intros _; eauto|]. split; [intros [=]|]. split; [by left|].
    intros -> _. split; [done|].
    revert Hg. unfold code.
    change (score_question_depth.detect_rejection_type unicode_lower
              (py "Will I be happy?")) with (py "predictive").
    intros [= <-]. split; reflexivity.
Qed.

(** The numbers of a scored request: the rounded score, the confidence,
    and the three sub-dimensions with the jitters drawn for them, in the
    order of [dimension_weights]. *)
Lemma scored_numbers (g : gate) (raw : str) (d : gmap str pyval) (t : str)
    (p0 p : Q) (s : rng) :
  json_loads raw = Ok (PyDict d) ->
  d !! py "text" = Some (PyStr t) ->
  t <> [] ->
  predict_proba g (PyStr t) = Ok (p0, p) ->
  let out := run g raw s in
  let draw1 := uniform (-0.05) 0.05 s in
  let draw2 := uniform (-0.05) 0.05 (snd draw1) in
  let draw3 := uniform (-0.05) 0.05 (snd draw2) in
  field (score_field g) out = Some (PyFloat (Fin (round p 3)))
  /\ field (py "confidence") out
     = Some (PyFloat (Fin (round (max (p0, p)) 3)))
  /\ Forall2
       (fun dim j =>
          dimension (fst dim) out
          = Some (PyFloat (Fin (round (p * snd dim + j) 3))))
       (dimension_weights g) [fst draw1; fst draw2; fst draw3].
Proof.
  intros Hloads Htext Ht Hproba.
  assert (Htruthy : truthy (PyStr t) = true) by (by destruct t).
  cbv zeta.
  destruct g; run_cases; dict_lookup;
    (split; [reflexivity|]; split; [reflexivity|]);
    cbv [dimension_weights]; repeat constructor.
Qed.

(** C6, as amended.  For every gate, every non-empty text and every
    jitter within [-0.05, +0.05], each sub-dimension
    [round(p * weight + jitter, 3)] is within 0.0505 of [p * weight] for
    the unrounded probability [p], and within 0.051 of the returned
    primary score times the weight. *)
Theorem dimensions_near_weighted_score (g : gate) (raw : str)
    (d : gmap str pyval) (t : str) (p0 p : Q) (s : rng) :
  (forall s0, -0.05 <= fst (uniform (-0.05) 0.05 s0) <= 0.05) ->
  json_loads raw = Ok (PyDict d) ->
  d !! py "text" = Some (PyStr t) ->
  t <> [] ->
  predict_proba g (PyStr t) = Ok (p0, p) ->
  (forall name w, In (name, w) (dimension_weights g) ->
     exists x, dimension name (run g raw s) = Some (PyFloat (Fin x))
               /\ p * w - 0.0505 <= x <= p * w + 0.0505)
  /\ dimensions_within 0.051 g (run g raw s).
Proof.
  intros Hrange Hloads Htext Ht Hproba.
  destruct (scored_numbers g raw d t p0 p s Hloads Htext Ht Hproba)
    as (Hscore & _ & Hdims).
  set (out := run g raw s) in *.
  set (s1 := snd (uniform (-0.05) 0.05 s)) in *.
  set (s2 := snd (uniform (-0.05) 0.05 s1)) in *.
  pose proof (Hrange s) as R1. pose proof (Hrange s1) as R2.
  pose proof (Hrange s2) as R3.
  set (j1 := fst (uniform (-0.05) 0.05 s)) in *.
  set (j2 := fst (uniform (-0.05) 0.05 s1)) in *.
  set (j3 := fst (uniform (-0.05) 0.05 s2)) in *.
  pose proof (round_3_near p) as Rp.
  split.
  - intros name w Hin.
    dimension_cases g Hin Hdims.
  - exists (round p 3). split; [exact Hscore|].
    intros name w Hin.
    dimension_cases g Hin Hdims.
Qed.

(** C7. For every gate and every non-empty text, the returned confidence
    is the larger of the two class probabilities rounded to 3 decimals;
    when the two are probabilities that sum to 1 it is [max(p, 1 - p)]
    rounded, and it lies in [0.5, 1]. *)
Theorem confidence_is_max_probability (g : gate) (raw : str)
    (d : gmap str pyval) (t : str) (p0 p : Q) (s : rng) :
  json_loads raw = Ok (PyDict d) ->
  d !! py "text" = Some (PyStr t) ->
  t <> [] ->
  predict_proba g (PyStr t) = Ok (p0, p) ->
  0 <= p0 -> 0 <= p -> p0 + p == 1 ->
  exists c,
    field (py "confidence") (run g raw s) = Some (PyFloat (Fin c))
    /\ c = round (max (p0, p)) 3
    /\ c = round (Qmax p (1 - p)) 3
    /\ 0.5 <= c <= 1.
Proof.
  intros Hloads Htext Ht Hproba Hp0 Hp Hsum.
  destruct (scored_numbers g raw d t p0 p s Hloads Htext Ht Hproba)
    as (_ & Hconf & _).
  exists (round (max (p0, p)) 3). split; [exact Hconf|].
  split; [reflexivity|].
  assert (Hmax : max (p0, p) == Qmax p (1 - p)).
  { rewrite max_is_Qmax, Q.max_comm.
    apply Q.max_compat; [reflexivity|lra]. }
  split; [by apply round_3_proper|].
  assert (Hbounds : 0.5 <= max (p0, p) <= 1).
  { unfold max. destruct (Qle_bool p p0) eqn:E.
    - apply Qle_bool_iff in E. lra.
    - assert (~ p <= p0) by (rewrite <- Qle_bool_iff, E; discriminate).
      lra. }
  assert (Hr : (500 # 1000) <= round (max (p0, p)) 3 <= (1000 # 1000)).
  { apply round_3_between.
    change (inject_Z 500) with 500. change (inject_Z 1000) with 1000. lra. }
  lra.
Qed.

(** C8. For every gate, two requests with non-empty texts to which the
    model gives the same probability of the positive class get the same
    [gate_decision], whatever else differs between the two runs. *)
Theorem decision_depends_only_on_probability (g : gate) (raw1 raw2 : str)
    (d1 d2 : gmap str pyval) (text1 text2 : pyval) (q1 q2 p1 p2 : Q)
    (s1 s2 : rng) :
  json_loads raw1 = Ok (PyDict d1) ->
  json_loads raw2 = Ok (PyDict d2) ->
  d1 !! py "text" = Some text1 ->
  d2 !! py "text" = Some text2 ->
  truthy text1 = true ->
  truthy text2 = true ->
  predict_proba g text1 = Ok (q1, p1) ->
  predict_proba g text2 = Ok (q2, p2) ->
  p1 == p2 ->
  field (py "gate_decision") (run g raw1 s1)
  = field (py "gate_decision") (run g raw2 s2).
Proof.
  intros Hl1 Hl2 Ht1 Ht2 Hy1 Hy2 Hp1 Hp2 E.
  rewrite (scored_decision g raw1 d1 text1 q1 p1 s1) by assumption.
  rewrite (scored_decision g raw2 d2 text2 q2 p2 s2) by assumption.
  assert (Qle_bool (threshold g) p1 = Qle_bool (threshold g) p2) as ->;
    [|reflexivity].
  apply eq_true_iff_eq. rewrite !Qle_bool_iff, E. reflexivity.
Qed.

(** C9. With the model and the input fixed, two calls of [run] return
    dicts that agree on every field other than [dimensions], whatever the
    states of the random generator. *)
Theorem only_dimensions_vary (g : gate) (raw : str) (s1 s2 : rng) :
  exists (d1 d2 : gmap str pyval) (s1' s2' : rng),
    run g raw s1 = (Ok (PyDict d1), s1')
    /\ run g raw s2 = (Ok (PyDict d2), s2')
    /\ delete (py "dimensions") d1 = delete (py "dimensions") d2.
Proof.
  destruct g; run_cases;
    (do 4 eexists; split; [reflexivity|]; split; [reflexivity|]);
    reflexivity.
Qed.

(** C10. [detect_rejection_type] returns, on every text, one of the six
    keys of [REJECTION_GUIDANCE], and these six are all its keys; so the
    lookup of the guidance never falls back on its default, and whenever
    a run reports a rejection type, the guidance it reports is the entry
    of [REJECTION_GUIDANCE] for that type. *)
Theorem rejection_type_has_guidance :
  (forall text : str,
     let code := score_question_depth.detect_rejection_type
                   unicode_lower text in
     In code RejectionClassifier.reason_codes
     /\ exists guidance,
          score_question_depth.REJECTION_GUIDANCE !! code = Some guidance
          /\ forall fallback,
               default fallback
                 (score_question_depth.REJECTION_GUIDANCE !! code)
               = guidance)
  /\ dom score_question_depth.REJECTION_GUIDANCE
     = list_to_set RejectionClassifier.reason_codes
  /\ (forall (raw : str) (s : rng) (code : str),
        field (py "rejection_type") (run question_depth raw s)
        = Some (PyStr code) ->
        exists guidance,
          score_question_depth.REJECTION_GUIDANCE !! code = Some guidance
          /\ field (py "guidance") (run question_depth raw s)
             = Some (PyStr guidance)).
Proof.
  split; [|split].
  - intros text code. split; [apply detect_rejection_type_code|].
    destruct (reason_code_has_guidance code
                (detect_rejection_type_code unicode_lower text))
      as [guidance Hg].
    exists guidance. split; [exact Hg|]. intros fallback. by rewrite Hg.
  - reflexivity.
  - intros raw s code.
    run_cases; dict_lookup; try discriminate.
    intros [= <-].
    match goal with
    | |- context [score_question_depth.detect_rejection_type ?f ?t] =>
        destruct (reason_code_has_guidance _
                    (detect_rejection_type_code f t)) as [guidance Hg]
    end.
    exists guidance. split; [exact Hg|].
    rewrite Hg. reflexivity.
Qed.

End Endpoints.

(** ** The endpoints at work on the concrete runtime *)

Section Examples.

Local Abbreviation at_demo thm :=
  (thm nat (fun s : str => s) Demo.json_loads Demo.predict_proba
     Demo.uniform).

(** The stand-in generator stays within its bounds. *)
Lemma Demo_uniform_range (n : nat) :
  -0.05 <= fst (Demo.uniform (-0.05) 0.05 n) <= 0.05.
Proof.
  unfold Demo.uniform. cbn [fst].
  pose proof (Nat.mod_upper_bound n 1000 ltac:(lia)) as Hk.
  set (k := Z.of_nat (n mod 1000)).
  assert (0 <= (k # 1000) <= 1) as [H0 H1].
  { unfold Qle. simpl. lia. }
  lra.
Qed.

(** A question of sixty code points is scored 0.6, which passes. *)
Lemma threshold_decides_gate_witness :
  field (py "gate_decision")
    (Demo.run question_depth
       (Demo.request
          "What would I notice first on an ordinary morning, that year?")
       0%nat)
  = Some (PyStr (py "PROCEED")).
Proof.
  apply (at_demo (@threshold_decides_gate) question_depth
           (Demo.request
              "What would I notice first on an ordinary morning, that year?")
           {[ py "text" :=
                PyStr (py "What would I notice first on an ordinary morning, that year?") ]}
           (PyStr (py "What would I notice first on an ordinary morning, that year?"))
           (40 # 100) (60 # 100) 0%nat);
    reflexivity.
Defined.

(** Malformed JSON: the decoder raises, the endpoint answers. *)
Lemma run_never_raises_witness :
  Demo.run decision_gravity (py "not json") 7%nat
  = (Ok (PyDict
           {[ py "error" :=
                PyStr (py "Expecting value: line 1 column 1 (char 0)");
              py "gate_decision" := PyStr (py "REFUSE") ]}), 7%nat).
Proof.
  destruct (at_demo (@run_never_raises) decision_gravity
              (py "not json") 7%nat) as (_ & _ & Hparse & _).
  apply (Hparse Demo.JSONDecodeError). reflexivity.
Defined.

(** A request that is not an object fails at [data.get]. *)
Example run_on_a_json_list :
  field (py "error") (Demo.run consequence_depth (py "[]") 0%nat)
  = Some (PyStr (py "'list' object has no attribute 'get'"))
  /\ field (py "gate_decision") (Demo.run consequence_depth (py "[]") 0%nat)
     = Some (PyStr (py "TERMINATE")).
Proof. split; reflexivity. Qed.

(** The request [{}] at the question-depth gate. *)
Lemma missing_text_is_refused_witness :
  Demo.run question_depth (py "{}") 0%nat
  = (Ok (PyDict
           {[ py "error" := PyStr (py "No text provided");
              py "gate_decision" := PyStr (py "REJECT");
              py "guidance" := PyStr (py "Please provide a question.") ]}),
     0%nat).
Proof.
  apply (proj1 (at_demo (@missing_text_is_refused) question_depth
                  (py "{}") ∅ 0%nat eq_refl)).
  left. reflexivity.
Defined.

(** The word-count rule is strict: five words are [binary], six are
    [generic]. *)
Example five_words_binary_six_generic :
  score_question_depth.detect_rejection_type (fun s => s)
    (py "one two three four five") = py "binary"
  /\ score_question_depth.detect_rejection_type (fun s => s)
       (py "one two three four five six") = py "generic".
Proof. split; reflexivity. Qed.

Lemma rejection_info_follows_decision_witness :
  let out := Demo.run question_depth (Demo.request "Will I be happy?")
               0%nat in
  field (py "gate_decision") out = Some (PyStr (py "REJECT"))
  /\ field (py "rejection_type") out = Some (PyStr (py "predictive"))
  /\ field (py "guidance") out
     = Some (PyStr (py "This question asks for predictions. Ask about one possible future experience.")).
Proof.
  apply (at_demo (@rejection_info_follows_decision)
           (Demo.request "Will I be happy?")
           {[ py "text" := PyStr (py "Will I be happy?") ]}
           (py "Will I be happy?") (84 # 100) (16 # 100) 0%nat);
    try reflexivity.
  discriminate.
Defined.

(** C6 as stated fails.  [Quit my job] is scored 0.11; with the jitter
    -0.0499 the third sub-dimension is [round(0.11 * 0.92 - 0.0499, 3)],
    that is 0.051, below [0.11 * 0.92 - 0.05 = 0.0512]. *)
Lemma dimension_interval_counterexample :
  let out := Demo.run decision_gravity (Demo.request "Quit my job")
               999%nat in
  Forall (fun n => -0.05 <= fst (Demo.uniform (-0.05) 0.05 n) <= 0.05)
    [999; 1000; 1001]%nat
  /\ fst (Demo.uniform (-0.05) 0.05 1001%nat) == -0.0499
  /\ field (py "gravity_score") out = Some (PyFloat (Fin 0.110))
  /\ dimension (py "temporal_consequence") out = Some (PyFloat (Fin 0.051))
  /\ ~ (0.110 * 0.92 - 0.05 <= 0.051)
  /\ ~ dimensions_within 0.05 decision_gravity out.
Proof.
  cbv zeta.
  split; [repeat constructor; apply Demo_uniform_range|].
  split; [reflexivity|].
  split; [reflexivity|].
  split; [reflexivity|].
  split; [intros H; vm_compute in H; by apply H|].
  intros (score & Hscore & Hdims).
  vm_compute in Hscore. injection Hscore as <-.
  destruct (Hdims (py "temporal_consequence") 0.92) as (x & Hx & Hlo & _).
  { cbv [dimension_weights]. simpl. auto. }
  vm_compute in Hx. injection Hx as <-.
  vm_compute in Hlo. by apply Hlo.
Qed.

Lemma dimensions_near_weighted_score_witness :
  dimensions_within 0.051 decision_gravity
    (Demo.run decision_gravity (Demo.request "Quit my job") 999%nat).
Proof.
  apply (at_demo (@dimensions_near_weighted_score) decision_gravity
           (Demo.request "Quit my job")
           {[ py "text" := PyStr (py "Quit my job") ]}
           (py "Quit my job") (89 # 100) (11 # 100) 999%nat);
    try reflexivity.
  - apply Demo_uniform_range.
  - discriminate.
Defined.

Lemma confidence_is_max_probability_witness :
  exists c,
    field (py "confidence")
      (Demo.run consequence_depth (Demo.request "Quit my job") 0%nat)
    = Some (PyFloat (Fin c))
    /\ c = round (max (89 # 100, 11 # 100)) 3
    /\ c = round (Qmax (11 # 100) (1 - (11 # 100))) 3
    /\ 0.5 <= c <= 1.
Proof.
  apply (at_demo (@confidence_is_max_probability) consequence_depth
           (Demo.request "Quit my job")
           {[ py "text" := PyStr (py "Quit my job") ]}
           (py "Quit my job") (89 # 100) (11 # 100) 0%nat);
    try reflexivity; try discriminate.
Defined.

(** Two questions of sixteen code points each get the same decision. *)
Lemma decision_depends_only_on_probability_witness :
  field (py "gate_decision")
    (Demo.run question_depth (Demo.request "Will I be happy?") 0%nat)
  = field (py "gate_decision")
      (Demo.run question_depth (Demo.request "Am I happy there") 5%nat).
Proof.
  apply (at_demo (@decision_depends_only_on_probability) question_depth
           (Demo.request "Will I be happy?")
           (Demo.request "Am I happy there")
           {[ py "text" := PyStr (py "Will I be happy?") ]}
           {[ py "text" := PyStr (py "Am I happy there") ]}
           (PyStr (py "Will I be happy?")) (PyStr (py "Am I happy there"))
           (84 # 100) (84 # 100) (16 # 100) (16 # 100) 0%nat 5%nat);
    reflexivity.
Defined.

(** The sub-dimensions do differ between two calls. *)
Example dimensions_may_differ :
  dimension (py "specificity")
    (Demo.run question_depth (Demo.request "Will I be happy?") 0%nat)
  <> dimension (py "specificity")
       (Demo.run question_depth (Demo.request "Will I be happy?") 100%nat).
Proof. vm_compute. discriminate. Qed.

Lemma rejection_type_has_guidance_witness :
  exists guidance,
    score_question_depth.REJECTION_GUIDANCE !! py "predictive"
    = Some guidance
    /\ field (py "guidance")
         (Demo.run question_depth (Demo.request "Will I be happy?") 0%nat)
       = Some (PyStr guidance).
Proof.
  apply (proj2 (proj2 (at_demo (@rejection_type_has_guidance)))
           (Demo.request "Will I be happy?") 0%nat (py "predictive")).
  reflexivity.
Defined.

End Examples.

(** * Further properties of the scoring scripts *)

Section Answers.

Context {rng : Type}.
Variable unicode_lower : str -> str.
Variable json_loads : str -> result pyval.
Variable predict_proba : gate -> pyval -> result (Q * Q).
Variable uniform : Q -> Q -> rng -> Q * rng.

Local Abbreviation run :=
  (run_gate unicode_lower json_loads predict_proba uniform).

(** X1.
    An answer is either an error or a score, never both and never
    neither.  With an error come the fail label and no score, dimensions or
    confidence; without one come the score, the confidence and a
    [dimensions] dict of exactly the three named sub-dimensions. *)
Theorem answer_is_error_or_score (g : gate) (raw : str) (s : rng) :
  exists (d : gmap str pyval) (s' : rng),
    run g raw s = (Ok (PyDict d), s')
    /\ ((is_Some (d !! py "error")
         /\ d !! py "gate_decision" = Some (PyStr (fail_label g))
         /\ d !! score_field g = None
         /\ d !! py "dimensions" = None
         /\ d !! py "confidence" = None)
        \/ (d !! py "error" = None
            /\ is_Some (d !! score_field g)
            /\ is_Some (d !! py "confidence")
            /\ exists dims : gmap str pyval,
                 d !! py "dimensions" = Some (PyDict dims)
                 /\ dom dims = list_to_set (fst <$> dimension_weights g))).
Proof.
  destruct g; run_cases;
    (eexists; eexists; split; [reflexivity|]);
    cbv [score_field fail_label dimension_weights];
    first
      [ left; dict_lookup; split; [by eexists|]; repeat split; reflexivity
      | right; dict_lookup; split; [reflexivity|];
        split; [by eexists|]; split; [by eexists|];
        eexists; split; reflexivity ].
Qed.

(** X2.
    The generator is used for scored requests only: an answer with an error
    leaves it as it was, an answer with a score has drawn exactly three
    jitters from it. *)
Theorem three_draws_per_score (g : gate) (raw : str) (s : rng) :
  let out := run g raw s in
  let draw := fun s0 => snd (uniform (-0.05) 0.05 s0) in
  (is_Some (field (py "error") out) -> snd out = s)
  /\ (field (py "error") out = None -> snd out = draw (draw (draw s))).
Proof.
  cbv zeta.
  destruct g; run_cases; dict_lookup; cbn [snd];
    (split; [intros [? ?]|intros ?]); try done;
    repeat match goal with
           | H : uniform _ _ _ = _ |- _ => rewrite H; cbn [snd]
           end; reflexivity.
Qed.

End Answers.

(** ** The returned score and the decision *)

Section RoundedScore.

(** Rounding to 3 decimals keeps a number on its side of a whole number of
    thousandths. *)
Lemma round_3_ge (x : Q) (lo : Z) :
  inject_Z lo <= x * 1000 -> (lo # 1000) <= round x 3.
Proof.
  intros Hlo. rewrite round_3.
  pose proof (round_half_even_near (x * 1000)) as [_ H2].
  set (n := round_half_even (x * 1000)) in *.
  assert (H : inject_Z (lo + -1) < inject_Z n).
  { rewrite inject_Z_plus. change (inject_Z (-1)) with (-1 # 1). lra. }
  rewrite <- Zlt_Qlt in H. unfold Qle. simpl. lia.
Qed.

Lemma round_3_le (x : Q) (hi : Z) :
  x * 1000 <= inject_Z hi -> round x 3 <= (hi # 1000).
Proof.
  intros Hhi. rewrite round_3.
  pose proof (round_half_even_near (x * 1000)) as [H1 _].
  set (n := round_half_even (x * 1000)) in *.
  assert (H : inject_Z n < inject_Z (hi + 1)).
  { rewrite inject_Z_plus. change (inject_Z 1) with 1. lra. }
  rewrite <- Zlt_Qlt in H. unfold Qle. simpl. lia.
Qed.

Context {rng : Type}.
Variable unicode_lower : str -> str.
Variable json_loads : str -> result pyval.
Variable predict_proba : gate -> pyval -> result (Q * Q).
Variable uniform : Q -> Q -> rng -> Q * rng.

Local Abbreviation run :=
  (run_gate unicode_lower json_loads predict_proba uniform).

(** X3.
    The decision is taken on the probability, the score is returned
    rounded: a pass comes with a returned score of at least the threshold, a
    fail with a returned score of at most the threshold (it can be equal:
    0.5996 is returned as 0.6 and fails the 0.6 gate). *)
Theorem returned_score_sides_with_decision (g : gate) (raw : str)
    (d : gmap str pyval) (t : str) (p0 p : Q) (s : rng) :
  json_loads raw = Ok (PyDict d) ->
  d !! py "text" = Some (PyStr t) ->
  t <> [] ->
  predict_proba g (PyStr t) = Ok (p0, p) ->
  exists score : Q,
    field (score_field g) (run g raw s) = Some (PyFloat (Fin score))
    /\ (field (py "gate_decision") (run g raw s)
        = Some (PyStr (pass_label g)) -> threshold g <= score)
    /\ (field (py "gate_decision") (run g raw s)
        = Some (PyStr (fail_label g)) -> score <= threshold g).
Proof.
  intros Hloads Htext Ht Hproba.
  assert (Htruthy : truthy (PyStr t) = true) by (by destruct t).
  destruct (scored_numbers unicode_lower json_loads predict_proba uniform
              g raw d t p0 p s Hloads Htext Ht Hproba) as (Hscore & _ & _).
  exists (round p 3). split; [exact Hscore|].
  rewrite (scored_decision unicode_lower json_loads predict_proba uniform
             g raw d (PyStr t) p0 p s Hloads Htext Htruthy Hproba).
  destruct (Qle_bool (threshold g) p) eqn:Hle.
  - split; [intros _|intros [= E]; by destruct (pass_is_not_fail g)].
    apply Qle_bool_iff in Hle.
    destruct g; cbv [threshold] in *.
    + assert (H : (500 # 1000) <= round p 3)
        by (apply round_3_ge; change (inject_Z 500) with 500; lra).
      lra.
    + assert (H : (600 # 1000) <= round p 3)
        by (apply round_3_ge; change (inject_Z 600) with 600; lra).
      lra.
    + assert (H : (500 # 1000) <= round p 3)
        by (apply round_3_ge; change (inject_Z 500) with 500; lra).
      lra.
  - split; [intros [= E]; by destruct (pass_is_not_fail g)|intros _].
    assert (Hlt : ~ threshold g <= p)
      by (rewrite <- Qle_bool_iff, Hle; discriminate).
    destruct g; cbv [threshold] in *.
    + assert (H : round p 3 <= (500 # 1000))
        by (apply round_3_le; change (inject_Z 500) with 500; lra).
      lra.
    + assert (H : round p 3 <= (600 # 1000))
        by (apply round_3_le; change (inject_Z 600) with 600; lra).
      lra.
    + assert (H : round p 3 <= (500 # 1000))
        by (apply round_3_le; change (inject_Z 500) with 500; lra).
      lra.
Qed.

End RoundedScore.

(** A probability of 0.5996 is returned as a score of 0.6 with a
    rejection. *)
Example score_at_threshold_rejected :
  let out := run_gate (fun s => s) Demo.json_loads
               (fun _ _ => Ok (0.4004, 0.5996)) Demo.uniform
               question_depth (Demo.request "Will I be happy?") 0%nat in
  field (py "depth_score") out = Some (PyFloat (Fin 0.600))
  /\ field (py "gate_decision") out = Some (PyStr (py "REJECT")).
Proof. split; reflexivity. Qed.

(** ** Start-up *)

Section StartupProperties.

Context {rng : Type}.
Variable unicode_lower : str -> str.
Variable json_loads : str -> result pyval.
Variable uniform : Q -> Q -> rng -> Q * rng.
Variable os_getenv : str -> option str.
Variable join : str -> str -> str.
Variable joblib_load : str -> result classifier.

Local Abbreviation init := (init_gate os_getenv join joblib_load).
Local Abbreviation serve model :=
  (run_gate unicode_lower json_loads (served_predict_proba model) uniform).

(** What a call of [init] does, case by case. *)
Lemma init_cases (g : gate) (model : option classifier) :
  match os_getenv (py "AZUREML_MODEL_DIR") with
  | None =>
      init g model
      = (Raise (TypeError
                  (py "expected str, bytes or os.PathLike object, not NoneType")),
         model)
  | Some dir =>
      match joblib_load (join dir (model_file g)) with
      | Ok loaded => init g model = (Ok tt, Some loaded)
      | Raise e => init g model = (Raise e, model)
      end
  end.
Proof.
  destruct g; cbv [init_gate score_decision_gravity.init
                     score_question_depth.init score_consequence_depth.init
                     bind lift os_path_join model_file];
    destruct (os_getenv (py "AZUREML_MODEL_DIR")) as [dir|]; try reflexivity;
    destruct (joblib_load _); reflexivity.
Qed.

(** X5.
    A successful [init] has read the model directory from the environment
    and loaded the file of its gate from there; from then on [run] scores
    with the loaded model. *)
Theorem init_loads_model_of_gate (g : gate)
    (before after : option classifier) :
  init g before = (Ok tt, after) ->
  exists (dir : str) (loaded : classifier),
    os_getenv (py "AZUREML_MODEL_DIR") = Some dir
    /\ joblib_load (join dir (model_file g)) = Ok loaded
    /\ after = Some loaded
    /\ forall (model : gate -> option classifier) (raw : str) (s : rng),
         model g = after ->
         serve model g raw s
         = run_gate unicode_lower json_loads (fun _ => loaded) uniform
             g raw s.
Proof.
  intros Hinit. pose proof (init_cases g before) as H.
  destruct (os_getenv (py "AZUREML_MODEL_DIR")) as [dir|] eqn:Henv;
    [|rewrite H in Hinit; discriminate].
  destruct (joblib_load (join dir (model_file g))) as [loaded|e] eqn:Hload;
    rewrite H in Hinit; [|discriminate].
  assert (after = Some loaded) as -> by congruence.
  exists dir, loaded.
  do 3 (split; [done|]).
  intros model raw s Hm.
  destruct g; cbv [run_gate served_predict_proba]; rewrite Hm; reflexivity.
Qed.

(** X6.
    A failed [init] leaves the global [model] as it was: an unset model
    directory gives a [TypeError], a failure of [joblib.load] is passed on,
    and nothing is assigned. *)
Theorem init_failure_keeps_model (g : gate) (before after : option classifier)
    (e : exn) :
  init g before = (Raise e, after) ->
  after = before
  /\ (os_getenv (py "AZUREML_MODEL_DIR") = None
      /\ e = TypeError
               (py "expected str, bytes or os.PathLike object, not NoneType")
      \/ exists dir,
           os_getenv (py "AZUREML_MODEL_DIR") = Some dir
           /\ joblib_load (join dir (model_file g)) = Raise e).
Proof.
  intros Hinit. pose proof (init_cases g before) as H.
  destruct (os_getenv (py "AZUREML_MODEL_DIR")) as [dir|] eqn:Henv.
  - destruct (joblib_load (join dir (model_file g))) as [loaded|e'] eqn:Hload;
      rewrite H in Hinit; [discriminate|].
    assert (e = e' /\ after = before) as [-> ->] by (split; congruence).
    split; [reflexivity|]. right. exists dir. by split.
  - rewrite H in Hinit.
    assert (after = before) as -> by congruence.
    split; [reflexivity|]. left. split; [reflexivity|]. congruence.
Qed.

(** X4.
    Before a successful [init] the global [model] is unbound.  A request
    with a text is then answered with the message of the [NameError] and the
    fail label, without a draw from the generator; a request without a text
    is still told that no text was provided. *)
Theorem run_without_model (g : gate) (model : gate -> option classifier)
    (raw : str) (d : gmap str pyval) (s : rng) :
  model g = None ->
  json_loads raw = Ok (PyDict d) ->
  (forall text, d !! py "text" = Some text -> truthy text = true ->
     serve model g raw s
     = (Ok (PyDict {[ py "error" := PyStr (py "name 'model' is not defined");
                      py "gate_decision" := PyStr (fail_label g) ]}), s))
  /\ (truthy (default (PyStr []) (d !! py "text")) = false ->
      field (py "error") (serve model g raw s)
      = Some (PyStr (py "No text provided"))).
Proof.
  intros Hmodel Hloads. split.
  - intros text Htext Htruthy.
    destruct g; cbv [run_gate served_predict_proba]; rewrite Hmodel;
      cbv [score_decision_gravity.model_predict_proba
             score_question_depth.model_predict_proba
             score_consequence_depth.model_predict_proba];
      run_eval; reflexivity.
  - intros Hfalsy.
    rewrite (run_no_text unicode_lower json_loads
               (served_predict_proba model) uniform g raw d s Hloads Hfalsy).
    destruct g; reflexivity.
Qed.

End StartupProperties.

(** ** More on the rejection classifier *)

Section Markers.

Variable unicode_lower : str -> str.

Local Abbreviation detect_rejection_type :=
  (score_question_depth.detect_rejection_type unicode_lower).

Lemma startswith_app (p s : str) : startswith p (p ++ s) = true.
Proof. induction p as [|c p IH]; simpl; [done|]. by rewrite N.eqb_refl. Qed.

(** [p in a + p + b] *)
Lemma contains_app (a p b : str) : contains p (a ++ p ++ b) = true.
Proof.
  induction a as [|c a IH]; simpl.
  - destruct (p ++ b) eqn:E; simpl; rewrite <- ?E, startswith_app; done.
  - rewrite IH. apply orb_true_r.
Qed.

Lemma isascii_app (a b : str) : isascii (a ++ b) = isascii a && isascii b.
Proof. unfold isascii. apply forallb_app. Qed.

Lemma lower_ascii (t : str) :
  isascii t = true -> lower unicode_lower t = map ascii_lower t.
Proof. unfold lower. by intros ->. Qed.

(** Lower-casing does not turn a letter into whitespace. *)
Lemma isspace_ascii_lower (c : N) : isspace (ascii_lower c) = isspace c.
Proof.
  unfold ascii_lower.
  destruct ((65 <=? c) && (c <=? 90))%N eqn:E; [|reflexivity].
  apply andb_true_iff in E. rewrite !N.leb_le in E.
  unfold isspace.
  repeat match goal with
         | |- context [(?a <=? ?b)%N] => destruct (N.leb_spec a b); try lia
         | |- context [(?a =? ?b)%N] => destruct (N.eqb_spec a b); try lia
         end.
Qed.

Lemma word_starts_ascii_lower (after_space : bool) (t : str) :
  RejectionClassifier.word_starts after_space (map ascii_lower t)
  = RejectionClassifier.word_starts after_space t.
Proof.
  revert after_space. induction t as [|c t IH]; intros after_space; simpl;
    [done|].
  by rewrite isspace_ascii_lower, IH.
Qed.

(** X7.
    The classifier does not see the case of ASCII letters: two ASCII texts
    that differ only in letter case get the same reason code. *)
Theorem detect_rejection_type_ignores_case (t1 t2 : str) :
  isascii t1 = true ->
  isascii t2 = true ->
  map ascii_lower t1 = map ascii_lower t2 ->
  detect_rejection_type t1 = detect_rejection_type t2.
Proof.
  intros H1 H2 E.
  unfold score_question_depth.detect_rejection_type.
  rewrite !lower_ascii by assumption. rewrite !length_split.
  unfold RejectionClassifier.word_count.
  rewrite <- (word_starts_ascii_lower true t1),
    <- (word_starts_ascii_lower true t2), E.
  reflexivity.
Qed.

(** X8.
    An advice marker wins over everything else in the text: an ASCII text
    in which one of the four advice markers occurs, in any letter case, is
    [advice_seeking], whatever comes before and after the marker. *)
Theorem advice_marker_wins (before marker after : str) :
  isascii before = true ->
  isascii marker = true ->
  isascii after = true ->
  In (map ascii_lower marker)
    [py "should i"; py "what should"; py "recommend"; py "advise"] ->
  detect_rejection_type (before ++ marker ++ after) = py "advice_seeking".
Proof.
  intros Ha Hm Hb Hin.
  unfold score_question_depth.detect_rejection_type.
  rewrite lower_ascii by (rewrite !isascii_app, Ha, Hm, Hb; reflexivity).
  rewrite !map_app.
  assert (E : any
                (fun p =>
                   contains p (map ascii_lower before
                               ++ map ascii_lower marker
                               ++ map ascii_lower after))
                [py "should i"; py "what should"; py "recommend";
                 py "advise"] = true).
  { unfold any. apply existsb_exists.
    exists (map ascii_lower marker). split; [exact Hin|apply contains_app]. }
  rewrite E. reflexivity.
Qed.

(** A string that starts with a code point other than whitespace, as every
    marker does, does not occur in a blank text. *)
Lemma contains_blank (p s : str) :
  match p with c :: _ => negb (isspace c) | [] => false end = true ->
  forallb isspace s = true ->
  contains p s = false.
Proof.
  destruct p as [|c p]; [done|]. intros Hc%negb_true_iff.
  induction s as [|x s IH]; simpl; [done|].
  intros Hs. apply andb_true_iff in Hs as [Hx Hs].
  rewrite (IH Hs), orb_false_r.
  destruct (N.eqb_spec c x) as [->|]; [congruence|done].
Qed.

(** A text of ASCII whitespace only has no marker and no word: it is
    [binary]. *)
Lemma blank_text_is_binary (t : str) :
  isascii t = true ->
  forallb isspace t = true ->
  detect_rejection_type t = py "binary".
Proof.
  intros Ha Hs.
  assert (Hl : forallb isspace (map ascii_lower t) = true).
  { rewrite forallb_forall in *. intros x Hx.
    apply in_map_iff in Hx as (c & <- & Hc).
    rewrite isspace_ascii_lower. by apply Hs. }
  assert (Hw : forall b, RejectionClassifier.word_starts b t = 0%nat).
  { clear Ha Hl. induction t as [|c t IH]; intros b; simpl in *; [done|].
    apply andb_true_iff in Hs as [Hc Hs]. rewrite Hc, (IH Hs). done. }
  unfold score_question_depth.detect_rejection_type.
  rewrite lower_ascii by assumption. rewrite length_split.
  unfold RejectionClassifier.word_count. rewrite Hw.
  unfold any. cbn [existsb].
  repeat match goal with
         | |- context [contains (py ?m) (map ascii_lower t)] =>
             rewrite (contains_blank (py m) _ eq_refl Hl)
         end.
  reflexivity.
Qed.

End Markers.

(** ** A blank question *)

Section BlankQuestion.

Context {rng : Type}.
Variable unicode_lower : str -> str.
Variable json_loads : str -> result pyval.
Variable predict_proba : gate -> pyval -> result (Q * Q).
Variable uniform : Q -> Q -> rng -> Q * rng.

Local Abbreviation run :=
  (run_gate unicode_lower json_loads predict_proba uniform).

(** X9.
    A question of ASCII whitespace only is not taken for a missing text: it
    goes to the model, and when the model scores it below 0.6 it is
    rejected as [binary], with the guidance for questions that are too
    simple. *)
Theorem blank_question_is_scored (raw : str) (d : gmap str pyval) (t : str)
    (p0 p : Q) (s : rng) :
  json_loads raw = Ok (PyDict d) ->
  d !! py "text" = Some (PyStr t) ->
  t <> [] ->
  isascii t = true ->
  forallb isspace t = true ->
  predict_proba question_depth (PyStr t) = Ok (p0, p) ->
  p < 0.6 ->
  let out := run question_depth raw s in
  field (py "error") out = None
  /\ field (py "gate_decision") out = Some (PyStr (py "REJECT"))
  /\ field (py "rejection_type") out = Some (PyStr (py "binary"))
  /\ field (py "guidance") out
     = Some (PyStr (py "This question is too simple. Explore specific dimensions of your future experience.")).
Proof.
  intros Hloads Htext Ht Hascii Hblank Hproba Hlow out.
  assert (Htruthy : truthy (PyStr t) = true) by (by destruct t).
  assert (Hle : Qle_bool 0.6 p = false).
  { destruct (Qle_bool 0.6 p) eqn:E; [|reflexivity].
    apply Qle_bool_iff in E. lra. }
  destruct (run_scores_text unicode_lower json_loads predict_proba uniform
              question_depth raw d t (p0, p) s Hloads Htext Ht Hproba)
    as [Herr _].
  pose proof (scored_decision unicode_lower json_loads predict_proba uniform
                question_depth raw d (PyStr t) p0 p s
                Hloads Htext Htruthy Hproba) as Hdec.
  destruct (question_rejection_fields unicode_lower json_loads predict_proba
              uniform raw d t p0 p s Hloads Htext Ht Hproba)
    as [Hcode Hguid].
  cbv [threshold] in Hdec. rewrite Hle in Hdec, Hcode, Hguid.
  rewrite (blank_text_is_binary unicode_lower t Hascii Hblank)
    in Hcode, Hguid.
  repeat split; assumption.
Qed.

End BlankQuestion.

(** * Properties of the training scripts *)

(** ** Labels and single scores *)

Section Training.

Context {rng : Type}.
Variable unicode_lower : str -> str.
Variable json_loads : str -> result pyval.
Variable predict_proba : gate -> pyval -> result (Q * Q).
Variable uniform : Q -> Q -> rng -> Q * rng.

Local Abbreviation run :=
  (run_gate unicode_lower json_loads predict_proba uniform).

(** X10.
    [create_binary_labels] gives one label per score, each 0 or 1, and the
    label is 1 exactly for the scores of at least the threshold; when the
    caller leaves the threshold out, it is the threshold of the gate that
    the script trains for. *)
Theorem create_binary_labels_pointwise (g : gate) (scores : list Q)
    (chosen : option Q) :
  let labels := create_binary_labels_gate g scores chosen in
  let limit := default (threshold g) chosen in
  length labels = length scores
  /\ Forall (fun label => label = 0%Z \/ label = 1%Z) labels
  /\ forall (i : nat) (score : Q),
       scores !! i = Some score ->
       (limit <= score -> labels !! i = Some 1%Z)
       /\ (~ limit <= score -> labels !! i = Some 0%Z).
Proof.
  cbv zeta.
  assert (E : create_binary_labels_gate g scores chosen
              = map (fun score =>
                       if Qle_bool (default (threshold g) chosen) score
                       then 1%Z else 0%Z) scores)
    by (destruct g; reflexivity).
  rewrite E. split; [apply length_map|]. split.
  - apply Forall_forall. intros label Hin.
    apply list_elem_of_In, in_map_iff in Hin as (score & <- & _).
    destruct (Qle_bool _ score); auto.
  - intros i score Hi.
    rewrite <- Qle_bool_iff.
    change (map ?f scores) with (f <$> scores).
    rewrite list_lookup_fmap, Hi. simpl.
    destruct (Qle_bool _ score); split; intros; congruence.
Qed.

(** X11.
    The labels of training and the decisions of serving agree: a
    probability that the endpoint lets pass is a score that the training
    script of the same gate labels 1, and the other way round. *)
Theorem training_label_matches_decision (g : gate) (raw : str)
    (d : gmap str pyval) (text : pyval) (p0 p : Q) (s : rng) :
  json_loads raw = Ok (PyDict d) ->
  d !! py "text" = Some text ->
  truthy text = true ->
  predict_proba g text = Ok (p0, p) ->
  create_binary_labels_gate g [p] None = [1%Z]
  <-> field (py "gate_decision") (run g raw s)
      = Some (PyStr (pass_label g)).
Proof.
  intros Hloads Htext Htruthy Hproba.
  rewrite (scored_decision unicode_lower json_loads predict_proba uniform
             g raw d text p0 p s Hloads Htext Htruthy Hproba).
  assert (E : create_binary_labels_gate g [p] None
              = [if Qle_bool (threshold g) p then 1%Z else 0%Z])
    by (destruct g; reflexivity).
  rewrite E.
  destruct (Qle_bool (threshold g) p); split; try done.
  intros [= H]. by destruct (pass_is_not_fail g).
Qed.

(** X12.
    The helper of the training script and the endpoint of the same gate
    agree on a text that the model scores: same decision, and the score
    and the confidence of the endpoint are those of the helper rounded to 3
    decimals.  They part on a failing model: the helper raises what the
    model raised, the endpoint answers with its message. *)
Theorem training_helper_matches_endpoint (g : gate) (raw : str)
    (d : gmap str pyval) (t : str) (s : rng) :
  json_loads raw = Ok (PyDict d) ->
  d !! py "text" = Some (PyStr t) ->
  t <> [] ->
  (forall p0 p : Q,
     predict_proba g (PyStr t) = Ok (p0, p) ->
     exists answer : gmap str pyval,
       get_score_gate g (predict_proba g) t = Ok (PyDict answer)
       /\ answer !! py "gate_decision"
          = field (py "gate_decision") (run g raw s)
       /\ answer !! score_field g = Some (PyFloat (Fin p))
       /\ field (score_field g) (run g raw s)
          = Some (PyFloat (Fin (round p 3)))
       /\ answer !! py "confidence" = Some (PyFloat (Fin (max (p0, p))))
       /\ field (py "confidence") (run g raw s)
          = Some (PyFloat (Fin (round (max (p0, p)) 3))))
  /\ (forall e : exn,
        predict_proba g (PyStr t) = Raise e ->
        get_score_gate g (predict_proba g) t = Raise e
        /\ field (py "error") (run g raw s) = Some (PyStr (exn_str e))).
Proof.
  intros Hloads Htext Ht.
  assert (Htruthy : truthy (PyStr t) = true) by (by destruct t).
  split.
  - intros p0 p Hproba.
    destruct (scored_numbers unicode_lower json_loads predict_proba uniform
                g raw d t p0 p s Hloads Htext Ht Hproba)
      as (Hscore & Hconf & _).
    rewrite Hscore, Hconf.
    rewrite (scored_decision unicode_lower json_loads predict_proba uniform
               g raw d (PyStr t) p0 p s Hloads Htext Htruthy Hproba).
    destruct g;
      cbv [get_score_gate train_decision_gravity.get_gravity_score
             train_question_depth.get_depth_score
             train_consequence_depth.get_depth_score and_then];
      rewrite Hproba; cbv [snd threshold pass_label fail_label score_field];
      (eexists; split; [reflexivity|]);
      dict_lookup; repeat split; reflexivity.
  - intros e Hproba. split.
    + destruct g;
        cbv [get_score_gate train_decision_gravity.get_gravity_score
               train_question_depth.get_depth_score
               train_consequence_depth.get_depth_score and_then];
        rewrite Hproba; reflexivity.
    + destruct g; run_eval; dict_lookup; reflexivity.
Qed.

End Training.

(** ** The text that the consequence-depth helper echoes *)

Section Echo.

(** X13.
    The helper of the consequence-depth script echoes a reflection of at
    most 100 code points as it is, and a longer one as its first 100 code
    points followed by three dots; the helpers of the other two scripts echo
    the text whole. *)
Theorem reflection_echo_is_cut (pipeline : classifier) (text : str)
    (p0 p : Q) :
  pipeline (PyStr text) = Ok (p0, p) ->
  (exists (answer : gmap str pyval) (shown : str),
     train_consequence_depth.get_depth_score pipeline text
     = Ok (PyDict answer)
     /\ answer !! py "text" = Some (PyStr shown)
     /\ (length text <= 100 -> shown = text)%nat
     /\ (100 < length text ->
         shown = take 100 text ++ py "..." /\ length shown = 103)%nat
     /\ (length shown <= 103)%nat
     /\ take 100 shown = take 100 text)
  /\ (exists answer : gmap str pyval,
        train_question_depth.get_depth_score pipeline text
        = Ok (PyDict answer)
        /\ answer !! py "text" = Some (PyStr text))
  /\ (exists answer : gmap str pyval,
        train_decision_gravity.get_gravity_score pipeline text
        = Ok (PyDict answer)
        /\ answer !! py "text" = Some (PyStr text)).
Proof.
  intros Hproba.
  cbv [train_consequence_depth.get_depth_score
         train_question_depth.get_depth_score
         train_decision_gravity.get_gravity_score and_then].
  rewrite Hproba.
  split; [|split; eexists; (split; [reflexivity|]); dict_lookup; reflexivity].
  eexists. eexists. split; [reflexivity|].
  split; [dict_lookup; reflexivity|].
  destruct (100 <? length text)%nat eqn:E.
  - apply Nat.ltb_lt in E.
    assert (Hlen : length (take 100 text ++ py "...") = 103%nat).
    { rewrite length_app, length_take.
      change (length (py "...")) with 3%nat. lia. }
    split; [intros; exfalso; lia|]. split; [done|].
    split; [rewrite Hlen; lia|].
    rewrite take_app_le by (rewrite length_take; lia).
    apply take_take.
  - apply Nat.ltb_ge in E.
    split; [done|]. split; [intros; exfalso; lia|]. split; [lia|done].
Qed.

End Echo.

(** ** Loading the label files *)

Section Loading.

Context {ndarray : Type}.
Variable json_loads : str -> result pyval.
Variable subscript_message : pyval -> str.
Variable np_array : list pyval -> result ndarray.

(** What the first two subscripts of the loop body do with a parsed line. *)
Lemma subscript_text_score (v : pyval) :
  (exists item text score,
     v = PyDict item /\ item !! py "text" = Some text
     /\ item !! py "score" = Some score
     /\ subscript subscript_message v "text" = Ok text
     /\ subscript subscript_message v "score" = Ok score)
  \/ (exists e,
        (subscript subscript_message v "text" = Raise e
         \/ exists text, subscript subscript_message v "text" = Ok text
                         /\ subscript subscript_message v "score" = Raise e)).
Proof.
  destruct v as [| | | | |l|item];
    try (right; eexists; left; reflexivity).
  unfold subscript.
  destruct (item !! py "text") as [text|] eqn:Ht;
    [|right; eexists; left; reflexivity].
  destruct (item !! py "score") as [score|] eqn:Hs;
    [|right; eexists; right; eexists; split; reflexivity].
  left. exists item, text, score. repeat split; assumption.
Qed.

(** The entry kept for a line with a [text]. *)
Lemma rejection_entry_with_text (item : gmap str pyval) (text : pyval) :
  item !! py "text" = Some text ->
  rejection_entry item
  = match item !! py "rejection_reason" with
    | Some reason =>
        if truthy reason then
          Some (PyDict {[ py "text" := text;
                          py "reason" := reason;
                          py "guidance" :=
                            default (PyStr []) (item !! py "guidance") ]})
        else None
    | None => None
    end.
Proof.
  intros Ht. unfold rejection_entry. rewrite Ht.
  by destruct (item !! py "rejection_reason").
Qed.

Lemma question_load_lines_ok (lines : list str) :
  forall (texts scores rejection_data out_t out_s out_r : list pyval),
    train_question_depth.load_lines json_loads subscript_message lines
      texts scores rejection_data = Ok (out_t, out_s, out_r) ->
    exists (items : list (gmap str pyval)) (ts ss : list pyval),
      Forall2 (fun line item => json_loads (strip line) = Ok (PyDict item))
        lines items
      /\ Forall2 (fun item text => item !! py "text" = Some text) items ts
      /\ Forall2 (fun item score => item !! py "score" = Some score) items ss
      /\ out_t = texts ++ ts
      /\ out_s = scores ++ ss
      /\ out_r = rejection_data ++ omap rejection_entry items.
Proof.
  induction lines as [|line lines IH];
    intros texts scores rej out_t out_s out_r.
  - simpl. intros [= <- <- <-]. exists [], [], [].
    rewrite !app_nil_r. repeat split; constructor.
  - cbn [train_question_depth.load_lines]. unfold and_then at 1.
    destruct (json_loads (strip line)) as [v|e] eqn:Hparse; [|discriminate].
    destruct (subscript_text_score v)
      as [(item & text & score & -> & Ht & Hs & Et & Es)
         |(e & [E|(text & Et & E)])].
    2: { rewrite E. discriminate. }
    2: { rewrite Et. cbn [and_then]. rewrite E. discriminate. }
    rewrite Et. cbn [and_then]. rewrite Es. cbn [and_then get].
    unfold subscript.
    pose proof (rejection_entry_with_text item text Ht) as Hentry.
    destruct (item !! py "rejection_reason") as [reason|];
      cbn [default from_option id truthy];
      [destruct (truthy reason)|]; cbn [and_then];
      intros H; apply IH in H
        as (items & ts & ss & Hi & Hts & Hss & -> & -> & ->);
      exists (item :: items), (text :: ts), (score :: ss);
      (do 3 (split; [by constructor|]));
      change (omap rejection_entry (item :: items))
        with (match rejection_entry item with
              | Some entry => entry :: omap rejection_entry items
              | None => omap rejection_entry items
              end);
      rewrite Hentry; rewrite <- ?app_assoc;
      repeat split; reflexivity.
Qed.

Lemma decision_load_lines_ok (lines : list str) :
  forall (texts scores out_t out_s : list pyval),
    train_decision_gravity.load_lines json_loads subscript_message lines
      texts scores = Ok (out_t, out_s) ->
    exists (items : list (gmap str pyval)) (ts ss : list pyval),
      Forall2 (fun line item => json_loads (strip line) = Ok (PyDict item))
        lines items
      /\ Forall2 (fun item text => item !! py "text" = Some text) items ts
      /\ Forall2 (fun item score => item !! py "score" = Some score) items ss
      /\ out_t = texts ++ ts
      /\ out_s = scores ++ ss.
Proof.
  induction lines as [|line lines IH]; intros texts scores out_t out_s.
  - simpl. intros [= <- <-]. exists [], [], [].
    rewrite !app_nil_r. repeat split; constructor.
  - cbn [train_decision_gravity.load_lines]. unfold and_then at 1.
    destruct (json_loads (strip line)) as [v|e] eqn:Hparse; [|discriminate].
    destruct (subscript_text_score v)
      as [(item & text & score & -> & Ht & Hs & Et & Es)
         |(e & [E|(text & Et & E)])].
    2: { rewrite E. discriminate. }
    2: { rewrite Et. cbn [and_then]. rewrite E. discriminate. }
    rewrite Et. cbn [and_then]. rewrite Es. cbn [and_then].
    intros H; apply IH in H as (items & ts & ss & Hi & Hts & Hss & -> & ->).
    exists (item :: items), (text :: ts), (score :: ss).
    do 3 (split; [by constructor|]).
    rewrite <- !app_assoc. split; reflexivity.
Qed.

Lemma consequence_load_lines_ok (lines : list str) :
  forall (texts scores dims out_t out_s out_d : list pyval),
    train_consequence_depth.load_lines json_loads subscript_message lines
      texts scores dims = Ok (out_t, out_s, out_d) ->
    exists (items : list (gmap str pyval)) (ts ss : list pyval),
      Forall2 (fun line item => json_loads (strip line) = Ok (PyDict item))
        lines items
      /\ Forall2 (fun item text => item !! py "text" = Some text) items ts
      /\ Forall2 (fun item score => item !! py "score" = Some score) items ss
      /\ out_t = texts ++ ts
      /\ out_s = scores ++ ss
      /\ out_d = dims
                 ++ map (fun item =>
                           default (PyDict ∅) (item !! py "dimensions"))
                      items.
Proof.
  induction lines as [|line lines IH];
    intros texts scores dims out_t out_s out_d.
  - simpl. intros [= <- <- <-]. exists [], [], [].
    rewrite !app_nil_r. repeat split; constructor.
  - cbn [train_consequence_depth.load_lines]. unfold and_then at 1.
    destruct (json_loads (strip line)) as [v|e] eqn:Hparse; [|discriminate].
    destruct (subscript_text_score v)
      as [(item & text & score & -> & Ht & Hs & Et & Es)
         |(e & [E|(text & Et & E)])].
    2: { rewrite E. discriminate. }
    2: { rewrite Et. cbn [and_then]. rewrite E. discriminate. }
    rewrite Et. cbn [and_then]. rewrite Es. cbn [and_then get].
    intros H; apply IH in H
      as (items & ts & ss & Hi & Hts & Hss & -> & -> & ->).
    exists (item :: items), (text :: ts), (score :: ss).
    do 3 (split; [by constructor|]).
    cbn [map]. rewrite <- !app_assoc. repeat split; reflexivity.
Qed.

(** X14.
    What the question-depth loader returns.  When it returns, every line of
    the file parsed, after stripping, to an object with a [text] and a
    [score]; the texts and the scores given to [np.array] are those of the
    lines, in the order of the file; and the rejection data are the entries,
    in that order, of the lines with a rejection reason that counts as
    true, the guidance being the empty string where a line has none. *)
Theorem question_data_follows_file (lines : list str) (texts : list pyval)
    (array : ndarray) (rejection_data : list pyval) :
  train_question_depth.load_training_data json_loads subscript_message
    np_array lines = Ok (texts, array, rejection_data) ->
  exists (items : list (gmap str pyval)) (scores : list pyval),
    Forall2 (fun line item => json_loads (strip line) = Ok (PyDict item))
      lines items
    /\ Forall2 (fun item text => item !! py "text" = Some text) items texts
    /\ Forall2 (fun item score => item !! py "score" = Some score)
         items scores
    /\ np_array scores = Ok array
    /\ rejection_data = omap rejection_entry items
    /\ length texts = length lines
    /\ length scores = length lines.
Proof.
  unfold train_question_depth.load_training_data, and_then.
  destruct (train_question_depth.load_lines _ _ lines [] [] [])
    as [[[out_t out_s] out_r]|e] eqn:Hload; [|discriminate].
  apply question_load_lines_ok in Hload
    as (items & ts & ss & Hi & Hts & Hss & -> & -> & ->).
  cbn [app].
  destruct (np_array ss) as [a|e] eqn:Harray; [|discriminate].
  intros [= <- <- <-]. exists items, ss.
  repeat split; try assumption.
  - rewrite <- (Forall2_length _ _ _ Hts). symmetry.
    exact (Forall2_length _ _ _ Hi).
  - rewrite <- (Forall2_length _ _ _ Hss). symmetry.
    exact (Forall2_length _ _ _ Hi).
Qed.

(** X15.
    What the other two loaders return: as for the question-depth loader,
    the texts and the scores are those of the lines, one per line and in the
    order of the file; the consequence-depth loader adds the [dimensions]
    of each line, an empty dict where a line has none. *)
Theorem decision_and_consequence_data_follow_file (lines : list str) :
  (forall (texts : list pyval) (array : ndarray),
     train_decision_gravity.load_training_data json_loads subscript_message
       np_array lines = Ok (texts, array) ->
     exists (items : list (gmap str pyval)) (scores : list pyval),
       Forall2 (fun line item => json_loads (strip line) = Ok (PyDict item))
         lines items
       /\ Forall2 (fun item text => item !! py "text" = Some text)
            items texts
       /\ Forall2 (fun item score => item !! py "score" = Some score)
            items scores
       /\ np_array scores = Ok array)
  /\ (forall (texts : list pyval) (array : ndarray)
        (dimensions : list pyval),
        train_consequence_depth.load_training_data json_loads
          subscript_message np_array lines
        = Ok (texts, array, dimensions) ->
        exists (items : list (gmap str pyval)) (scores : list pyval),
          Forall2
            (fun line item => json_loads (strip line) = Ok (PyDict item))
            lines items
          /\ Forall2 (fun item text => item !! py "text" = Some text)
               items texts
          /\ Forall2 (fun item score => item !! py "score" = Some score)
               items scores
          /\ np_array scores = Ok array
          /\ dimensions
             = map (fun item =>
                      default (PyDict ∅) (item !! py "dimensions")) items).
Proof.
  split.
  - intros texts array.
    unfold train_decision_gravity.load_training_data, and_then.
    destruct (train_decision_gravity.load_lines _ _ lines [] [])
      as [[out_t out_s]|e] eqn:Hload; [|discriminate].
    apply decision_load_lines_ok in Hload
      as (items & ts & ss & Hi & Hts & Hss & -> & ->).
    cbn [app].
    destruct (np_array ss) as [a|e] eqn:Harray; [|discriminate].
    intros [= <- <-]. exists items, ss. repeat split; assumption.
  - intros texts array dimensions.
    unfold train_consequence_depth.load_training_data, and_then.
    destruct (train_consequence_depth.load_lines _ _ lines [] [] [])
      as [[[out_t out_s] out_d]|e] eqn:Hload; [|discriminate].
    apply consequence_load_lines_ok in Hload
      as (items & ts & ss & Hi & Hts & Hss & -> & -> & ->).
    cbn [app].
    destruct (np_array ss) as [a|e] eqn:Harray; [|discriminate].
    intros [= <- <- <-]. exists items, ss. repeat split; assumption.
Qed.

End Loading.

(** ** Bad lines and blank padding *)

Section LoadingEdges.

Context {ndarray : Type}.
Variable json_loads : str -> result pyval.
Variable subscript_message : pyval -> str.
Variable np_array : list pyval -> result ndarray.

Local Abbreviation question_lines :=
  (train_question_depth.load_lines json_loads subscript_message).
Local Abbreviation decision_lines :=
  (train_decision_gravity.load_lines json_loads subscript_message).
Local Abbreviation consequence_lines :=
  (train_consequence_depth.load_lines json_loads subscript_message).

(** A line that parses to an object with a [text] and a [score] takes the
    loop to the next line. *)
Lemma good_line_goes_on (line : str) (more : list str)
    (item : gmap str pyval) :
  json_loads (strip line) = Ok (PyDict item) ->
  is_Some (item !! py "text") ->
  is_Some (item !! py "score") ->
  (forall texts scores rejection_data,
     exists texts' scores' rejection_data',
       question_lines (line :: more) texts scores rejection_data
       = question_lines more texts' scores' rejection_data')
  /\ (forall texts scores,
        exists texts' scores',
          decision_lines (line :: more) texts scores
          = decision_lines more texts' scores')
  /\ (forall texts scores dims,
        exists texts' scores' dims',
          consequence_lines (line :: more) texts scores dims
          = consequence_lines more texts' scores' dims').
Proof.
  intros Hparse [text Ht] [score Hs].
  split; [|split]; intros;
    cbn [train_question_depth.load_lines train_decision_gravity.load_lines
           train_consequence_depth.load_lines];
    rewrite Hparse; cbn [and_then subscript get]; rewrite Ht, Hs;
    cbn [and_then]; [|by do 2 eexists|by do 3 eexists].
  destruct (item !! py "rejection_reason") as [reason|];
    cbn [default from_option id truthy];
    [destruct (truthy reason)|]; cbn [and_then]; by do 3 eexists.
Qed.

(** The three ways in which a line fails: it does not parse, it parses to
    something other than an object, or the object lacks [text] or
    [score]. *)
Lemma bad_line_raises (line : str) (more : list str) (e : exn) :
  (json_loads (strip line) = Raise e
   \/ (exists v, json_loads (strip line) = Ok v
                 /\ (forall item, v <> PyDict item)
                 /\ e = TypeError (subscript_message v))
   \/ (exists item, json_loads (strip line) = Ok (PyDict item)
                    /\ (item !! py "text" = None /\ e = KeyError "text"
                        \/ is_Some (item !! py "text")
                           /\ item !! py "score" = None
                           /\ e = KeyError "score"))) ->
  (forall texts scores rejection_data,
     question_lines (line :: more) texts scores rejection_data = Raise e)
  /\ (forall texts scores,
        decision_lines (line :: more) texts scores = Raise e)
  /\ (forall texts scores dims,
        consequence_lines (line :: more) texts scores dims = Raise e).
Proof.
  intros [Hparse|[(v & Hparse & Hv & ->)|(item & Hparse & Hkey)]];
    (split; [|split]); intros;
    cbn [train_question_depth.load_lines train_decision_gravity.load_lines
           train_consequence_depth.load_lines];
    rewrite Hparse; cbn [and_then]; try reflexivity.
  1-3: destruct v; try reflexivity; by destruct (Hv d).
  all: destruct Hkey as [[Ht ->]|([text Ht] & Hs & ->)];
    cbn [subscript]; rewrite Ht; cbn [and_then]; try reflexivity;
    rewrite Hs; reflexivity.
Qed.

(** X16.
    The first line that fails ends the loading: the loader raises what that
    line raised, whatever lines came before and come after, and returns
    nothing of what it had read. *)
Theorem first_bad_line_aborts (good : list str) (bad : str)
    (rest : list str) (e : exn) :
  Forall (fun line =>
            exists item, json_loads (strip line) = Ok (PyDict item)
                         /\ is_Some (item !! py "text")
                         /\ is_Some (item !! py "score")) good ->
  (json_loads (strip bad) = Raise e
   \/ (exists v, json_loads (strip bad) = Ok v
                 /\ (forall item, v <> PyDict item)
                 /\ e = TypeError (subscript_message v))
   \/ (exists item, json_loads (strip bad) = Ok (PyDict item)
                    /\ (item !! py "text" = None /\ e = KeyError "text"
                        \/ is_Some (item !! py "text")
                           /\ item !! py "score" = None
                           /\ e = KeyError "score"))) ->
  train_question_depth.load_training_data json_loads subscript_message
    np_array (good ++ bad :: rest) = Raise e
  /\ train_decision_gravity.load_training_data json_loads subscript_message
       np_array (good ++ bad :: rest) = Raise e
  /\ train_consequence_depth.load_training_data json_loads subscript_message
       np_array (good ++ bad :: rest) = Raise e.
Proof.
  intros Hgood Hbad.
  destruct (bad_line_raises bad rest e Hbad) as (Bq & Bd & Bc).
  assert (H : (forall texts scores rej,
                 question_lines (good ++ bad :: rest) texts scores rej
                 = Raise e)
              /\ (forall texts scores,
                    decision_lines (good ++ bad :: rest) texts scores
                    = Raise e)
              /\ (forall texts scores dims,
                    consequence_lines (good ++ bad :: rest) texts scores dims
                    = Raise e)).
  { induction Hgood as [|line good (item & Hp & Ht & Hs) _ (IHq & IHd & IHc)];
      [by repeat split|].
    destruct (good_line_goes_on line (good ++ bad :: rest) item Hp Ht Hs)
      as (Gq & Gd & Gc).
    split; [|split]; intros; rewrite <- app_comm_cons.
    - destruct (Gq texts scores rej) as (t' & s' & r' & ->). apply IHq.
    - destruct (Gd texts scores) as (t' & s' & ->). apply IHd.
    - destruct (Gc texts scores dims) as (t' & s' & d' & ->). apply IHc. }
  destruct H as (Hq & Hd & Hc).
  unfold train_question_depth.load_training_data,
    train_decision_gravity.load_training_data,
    train_consequence_depth.load_training_data.
  rewrite Hq, Hd, Hc. repeat split; reflexivity.
Qed.

(** Stripping drops whitespace put before or after a string. *)
Lemma lstrip_blank_app (blank s : str) :
  forallb isspace blank = true -> lstrip (blank ++ s) = lstrip s.
Proof.
  induction blank as [|c blank IH]; simpl; [done|].
  intros H. apply andb_true_iff in H as [-> H]. by apply IH.
Qed.

Lemma lstrip_blank (blank : str) :
  forallb isspace blank = true -> lstrip blank = [].
Proof.
  intros H. rewrite <- (app_nil_r blank). by rewrite lstrip_blank_app.
Qed.

Lemma rstrip_app_blank (s blank : str) :
  forallb isspace blank = true -> rstrip (s ++ blank) = rstrip s.
Proof.
  intros H. unfold rstrip. rewrite rev_app_distr, lstrip_blank_app; [done|].
  rewrite forallb_forall in *. intros x Hx. apply H. by apply in_rev.
Qed.

Lemma lstrip_app_blank (s blank : str) :
  forallb isspace blank = true ->
  lstrip (s ++ blank)
  = if forallb isspace s then [] else lstrip s ++ blank.
Proof.
  intros H. induction s as [|c s IH]; simpl; [by apply lstrip_blank|].
  destruct (isspace c); simpl; [exact IH|reflexivity].
Qed.

Lemma strip_padded (before s after : str) :
  forallb isspace before = true ->
  forallb isspace after = true ->
  strip (before ++ s ++ after) = strip s.
Proof.
  intros Hb Ha. unfold strip.
  rewrite lstrip_blank_app by assumption.
  rewrite lstrip_app_blank by assumption.
  destruct (forallb isspace s) eqn:Hs.
  - by rewrite lstrip_blank.
  - by apply rstrip_app_blank.
Qed.

(** X17.
    The loaders see each line stripped: two files whose lines differ only
    in whitespace at the ends of the lines, such as the line terminators or
    an indentation, load to the same result. *)
Theorem loading_ignores_padding (lines padded : list str) :
  Forall2 (fun line line' =>
             exists before after,
               forallb isspace before = true
               /\ forallb isspace after = true
               /\ line' = before ++ line ++ after) lines padded ->
  train_question_depth.load_training_data json_loads subscript_message
    np_array padded
  = train_question_depth.load_training_data json_loads subscript_message
      np_array lines
  /\ train_decision_gravity.load_training_data json_loads subscript_message
       np_array padded
     = train_decision_gravity.load_training_data json_loads
         subscript_message np_array lines
  /\ train_consequence_depth.load_training_data json_loads
       subscript_message np_array padded
     = train_consequence_depth.load_training_data json_loads
         subscript_message np_array lines.
Proof.
  intros Hpad.
  assert (H : (forall texts scores rej,
                 question_lines padded texts scores rej
                 = question_lines lines texts scores rej)
              /\ (forall texts scores,
                    decision_lines padded texts scores
                    = decision_lines lines texts scores)
              /\ (forall texts scores dims,
                    consequence_lines padded texts scores dims
                    = consequence_lines lines texts scores dims)).
  { induction Hpad
      as [|line line' lines padded (b & a & Hb & Ha & ->) _ (IHq & IHd & IHc)];
      [by repeat split|].
    split; [|split]; intros;
      cbn [train_question_depth.load_lines train_decision_gravity.load_lines
             train_consequence_depth.load_lines];
      rewrite strip_padded by assumption;
      unfold and_then; (destruct (json_loads (strip line)); [|reflexivity]);
      repeat match goal with
             | |- context [match ?r with Ok _ => _ | Raise _ => _ end] =>
                 destruct r; [|reflexivity]
             | |- context [if truthy ?v then _ else _] => destruct (truthy v)
             end; first [apply IHq | apply IHd | apply IHc]. }
  destruct H as (Hq & Hd & Hc).
  unfold train_question_depth.load_training_data,
    train_decision_gravity.load_training_data,
    train_consequence_depth.load_training_data.
  rewrite Hq, Hd, Hc. repeat split; reflexivity.
Qed.

End LoadingEdges.

(** * Properties of the deployment script *)

Section Deploying.

Context {world client : Type}.
Variable join : str -> str -> str.
Variable os_path_exists : str -> bool.
Variable MLClient : str -> str -> str -> M world client.
Variable models_create_or_update :
  client -> str -> str -> str -> M world deploy_models.registered.
Variable environments_create_or_update :
  client -> str -> str -> str -> str -> M world deploy_models.registered.
Variable write_json : str -> pyval -> M world unit.

Local Abbreviation register_models :=
  (deploy_models.register_models join os_path_exists
     models_create_or_update).
Local Abbreviation main :=
  (deploy_models.main join os_path_exists MLClient models_create_or_update
     environments_create_or_update write_json).

(** The loop adds an entry for each model whose file exists, and nothing
    else. *)
Lemma register_models_keys (ml_client : client) (dir : str)
    (todo : list (str * str)) :
  forall (so_far out : gmap str pyval) (w w' : world),
    register_models ml_client dir todo so_far w = (Ok out, w') ->
    forall model_name : str,
      is_Some (out !! model_name)
      <-> is_Some (so_far !! model_name)
          \/ exists model_file,
               In (model_name, model_file) todo
               /\ os_path_exists (join dir model_file) = true.
Proof.
  induction todo as [|[n f] todo IH]; intros so_far out w w' Hrun model_name.
  - injection Hrun as <- _. split; [by left|].
    intros [H|(model_file & [] & _)]. exact H.
  - cbn [deploy_models.register_models] in Hrun.
    destruct (os_path_exists (join dir f)) eqn:Hf; cbn [negb] in Hrun.
    + unfold bind at 1 in Hrun.
      destruct (deploy_models.register_model _ _ _ _ w) as [[model|e] w1];
        [|discriminate].
      rewrite (IH _ _ _ _ Hrun model_name).
      rewrite lookup_insert. destruct (decide (n = model_name)) as [->|Hne].
      * split; [intros _|intros _; left; by eexists].
        right. exists f. split; [by left|exact Hf].
      * split; (intros [H|(model_file & Hin & Hex)]; [by left|right]);
          exists model_file; (split; [|exact Hex]).
        -- by right.
        -- destruct Hin as [[= -> ->]|Hin]; [done|exact Hin].
    + rewrite (IH _ _ _ _ Hrun model_name).
      split; (intros [H|(model_file & Hin & Hex)]; [by left|right]);
        exists model_file; (split; [|exact Hex]).
      * by right.
      * destruct Hin as [[= -> ->]|Hin]; [congruence|exact Hin].
Qed.

(** X18.
    When the deployment goes through, the configuration that it writes
    names the workspace of the command line and lists, of the three
    models, exactly those whose file is in the models directory: a model
    without a file is left out, not reported as a failure. *)
Theorem configuration_lists_models_on_disk (args : deploy_models.arguments)
    (config : pyval) (w w' : world) :
  main args w = (Ok config, w') ->
  exists (entries models : gmap str pyval),
    config = PyDict entries
    /\ entries !! py "workspace"
       = Some (PyStr (deploy_models.workspace_name args))
    /\ entries !! py "resource_group"
       = Some (PyStr (deploy_models.resource_group args))
    /\ entries !! py "subscription_id"
       = Some (PyStr (deploy_models.subscription_id args))
    /\ entries !! py "models" = Some (PyDict models)
    /\ forall model_name : str,
         is_Some (models !! model_name)
         <-> exists model_file,
               In (model_name, model_file) deploy_models.models_info
               /\ os_path_exists
                    (join (deploy_models.models_dir args) model_file)
                  = true.
Proof.
  unfold deploy_models.main, deploy_models.get_ml_client.
  unfold bind at 1. destruct (MLClient _ _ _ w) as [[c|e] w1]; [|discriminate].
  unfold bind at 1.
  destruct (deploy_models.create_environment _ _ _ w1) as [[env|e] w2];
    [|discriminate].
  unfold bind at 1.
  destruct (register_models c (deploy_models.models_dir args)
              deploy_models.models_info ∅ w2)
    as [[models|e] w3] eqn:Hloop; [|discriminate].
  unfold bind at 1.
  destruct (write_json _ _ w3) as [[[]|e] w4]; [|discriminate].
  unfold ret. intros [= <- <-].
  eexists. exists models. split; [reflexivity|].
  do 4 (split; [reflexivity|]).
  intros model_name.
  rewrite (register_models_keys _ _ _ _ _ _ _ Hloop model_name).
  rewrite lookup_empty. split; [intros [[? [=]]|H]; exact H|by right].
Qed.

(** X19.
    With none of the three model files in the models directory, the
    deployment registers no model: once the client and the environment are
    there, it goes straight to writing a configuration with an empty list
    of models, and succeeds if that write does. *)
Theorem nothing_to_register_is_no_failure (args : deploy_models.arguments)
    (ml_client : client) (env : deploy_models.registered) (w w1 w2 : world) :
  MLClient (deploy_models.subscription_id args)
    (deploy_models.resource_group args) (deploy_models.workspace_name args) w
  = (Ok ml_client, w1) ->
  deploy_models.create_environment environments_create_or_update ml_client
    (py "fcs-classifier-env") w1 = (Ok env, w2) ->
  (forall model_name model_file,
     In (model_name, model_file) deploy_models.models_info ->
     os_path_exists (join (deploy_models.models_dir args) model_file)
     = false) ->
  let config :=
    PyDict
      {[ py "workspace" := PyStr (deploy_models.workspace_name args);
         py "resource_group" := PyStr (deploy_models.resource_group args);
         py "subscription_id" := PyStr (deploy_models.subscription_id args);
         py "environment" :=
           PyDict {[ py "name" := deploy_models.name env;
                     py "version" := deploy_models.version env ]};
         py "models" := PyDict ∅ ]} in
  main args w
  = match write_json
            (join (deploy_models.models_dir args)
               (py "azure_models_config.json")) config w2 with
    | (Ok _, w3) => (Ok config, w3)
    | (Raise e, w3) => (Raise e, w3)
    end.
Proof.
  intros Hclient Henv Hnone config.
  unfold deploy_models.main, deploy_models.get_ml_client.
  unfold bind at 1. rewrite Hclient.
  unfold bind at 1. rewrite Henv.
  unfold bind at 1.
  cbn [deploy_models.register_models deploy_models.models_info].
  rewrite (Hnone _ _ (or_introl eq_refl)),
    (Hnone _ _ (or_intror (or_introl eq_refl))),
    (Hnone _ _ (or_intror (or_intror (or_introl eq_refl)))).
  cbn [negb]. unfold ret at 1. unfold bind, ret. reflexivity.
Qed.

End Deploying.

(** * The further properties at work on the concrete runtime *)

Section MoreExamples.

Local Abbreviation at_demo thm :=
  (thm nat (fun s : str => s) Demo.json_loads Demo.predict_proba
     Demo.uniform).

(** A scored question has moved the generator by three draws. *)
Lemma three_draws_per_score_witness :
  snd (Demo.run question_depth (Demo.request "Will I be happy?") 0%nat)
  = 3%nat.
Proof.
  apply (proj2 (at_demo (@three_draws_per_score) question_depth
                  (Demo.request "Will I be happy?") 0%nat)).
  reflexivity.
Defined.

Lemma returned_score_sides_with_decision_witness :
  exists score : Q,
    field (py "depth_score")
      (Demo.run question_depth (Demo.request "Will I be happy?") 0%nat)
    = Some (PyFloat (Fin score))
    /\ (field (py "gate_decision")
          (Demo.run question_depth (Demo.request "Will I be happy?") 0%nat)
        = Some (PyStr (py "PROCEED")) -> 0.6 <= score)
    /\ (field (py "gate_decision")
          (Demo.run question_depth (Demo.request "Will I be happy?") 0%nat)
        = Some (PyStr (py "REJECT")) -> score <= 0.6).
Proof.
  apply (at_demo (@returned_score_sides_with_decision) question_depth
           (Demo.request "Will I be happy?")
           {[ py "text" := PyStr (py "Will I be happy?") ]}
           (py "Will I be happy?") (84 # 100) (16 # 100) 0%nat);
    try reflexivity.
  discriminate.
Defined.

(** The start-up of the question-depth endpoint on the stand-in platform. *)
Lemma init_loads_model_of_gate_witness :
  exists (dir : str) (loaded : classifier),
    Demo.os_getenv (py "AZUREML_MODEL_DIR") = Some dir
    /\ Demo.joblib_load (Demo.join dir (model_file question_depth))
       = Ok loaded
    /\ Some (Demo.predict_proba question_depth) = Some loaded
    /\ forall (model : gate -> option classifier) (raw : str) (s : nat),
         model question_depth = Some (Demo.predict_proba question_depth) ->
         run_gate (fun t => t) Demo.json_loads (served_predict_proba model)
           Demo.uniform question_depth raw s
         = run_gate (fun t => t) Demo.json_loads (fun _ => loaded)
             Demo.uniform question_depth raw s.
Proof.
  apply (@init_loads_model_of_gate nat (fun t => t) Demo.json_loads
           Demo.uniform Demo.os_getenv Demo.join Demo.joblib_load
           question_depth None (Some (Demo.predict_proba question_depth))).
  reflexivity.
Defined.

(** A start-up without the model directory in the environment. *)
Lemma init_failure_keeps_model_witness :
  (None : option classifier) = None
  /\ ((fun _ : str => @None str) (py "AZUREML_MODEL_DIR") = None
      /\ TypeError
           (py "expected str, bytes or os.PathLike object, not NoneType")
         = TypeError
             (py "expected str, bytes or os.PathLike object, not NoneType")
      \/ exists dir,
           (fun _ : str => @None str) (py "AZUREML_MODEL_DIR") = Some dir
           /\ Demo.joblib_load
                (Demo.join dir (model_file consequence_depth))
              = Raise
                  (TypeError
                     (py "expected str, bytes or os.PathLike object, not NoneType"))).
Proof.
  apply (@init_failure_keeps_model (fun _ => None) Demo.join
           Demo.joblib_load consequence_depth None None
           (TypeError
              (py "expected str, bytes or os.PathLike object, not NoneType"))).
  reflexivity.
Defined.

(** A question sent before the start-up. *)
Lemma run_without_model_witness :
  run_gate (fun t => t) Demo.json_loads
    (served_predict_proba (fun _ => None)) Demo.uniform
    question_depth (Demo.request "Will I be happy?") 0%nat
  = (Ok (PyDict {[ py "error" := PyStr (py "name 'model' is not defined");
                   py "gate_decision" := PyStr (py "REJECT") ]}), 0%nat).
Proof.
  apply (proj1 (@run_without_model nat (fun t => t) Demo.json_loads
                  Demo.uniform question_depth (fun _ => None)
                  (Demo.request "Will I be happy?")
                  {[ py "text" := PyStr (py "Will I be happy?") ]} 0%nat
                  eq_refl eq_refl)
           (PyStr (py "Will I be happy?")));
    reflexivity.
Defined.

Lemma detect_rejection_type_ignores_case_witness :
  score_question_depth.detect_rejection_type (fun t => t)
    (py "WILL IT RAIN?")
  = score_question_depth.detect_rejection_type (fun t => t)
      (py "will it rain?").
Proof.
  apply (detect_rejection_type_ignores_case (fun t => t)); reflexivity.
Defined.

Lemma advice_marker_wins_witness :
  score_question_depth.detect_rejection_type (fun t => t)
    (py "It will be fine, but " ++ py "What Should"
       ++ py " I tell them, right?")
  = py "advice_seeking".
Proof.
  apply (advice_marker_wins (fun t => t)); try reflexivity.
  simpl. auto.
Defined.

(** A question of three spaces. *)
Lemma blank_question_is_scored_witness :
  let out := Demo.run question_depth (Demo.request "   ") 0%nat in
  field (py "error") out = None
  /\ field (py "gate_decision") out = Some (PyStr (py "REJECT"))
  /\ field (py "rejection_type") out = Some (PyStr (py "binary"))
  /\ field (py "guidance") out
     = Some (PyStr (py "This question is too simple. Explore specific dimensions of your future experience.")).
Proof.
  apply (at_demo (@blank_question_is_scored) (Demo.request "   ")
           {[ py "text" := PyStr (py "   ") ]} (py "   ")
           (97 # 100) (3 # 100) 0%nat);
    try reflexivity.
  discriminate.
Defined.

End MoreExamples.

Section TrainingExamples.

Local Abbreviation at_demo thm :=
  (thm nat (fun s : str => s) Demo.json_loads Demo.predict_proba
     Demo.uniform).

(** Three scores at the default threshold of the question-depth script. *)
Lemma create_binary_labels_pointwise_witness :
  train_question_depth.create_binary_labels [0.2; 0.6; 0.9] None
  !! 1%nat = Some 1%Z.
Proof.
  destruct (create_binary_labels_pointwise question_depth [0.2; 0.6; 0.9]
              None) as (_ & _ & H).
  apply (H 1%nat 0.6 eq_refl). apply Qle_refl.
Defined.

Lemma training_label_matches_decision_witness :
  train_question_depth.create_binary_labels [60 # 100] None = [1%Z].
Proof.
  apply (at_demo (@training_label_matches_decision) question_depth
           (Demo.request
              "What would I notice first on an ordinary morning, that year?")
           {[ py "text" :=
                PyStr (py "What would I notice first on an ordinary morning, that year?") ]}
           (PyStr (py "What would I notice first on an ordinary morning, that year?"))
           (40 # 100) (60 # 100) 0%nat);
    reflexivity.
Defined.

Lemma training_helper_matches_endpoint_witness :
  exists answer : gmap str pyval,
    train_question_depth.get_depth_score
      (Demo.predict_proba question_depth) (py "Will I be happy?")
    = Ok (PyDict answer)
    /\ answer !! py "gate_decision"
       = field (py "gate_decision")
           (Demo.run question_depth (Demo.request "Will I be happy?") 0%nat)
    /\ answer !! py "depth_score" = Some (PyFloat (Fin (16 # 100)))
    /\ field (py "depth_score")
         (Demo.run question_depth (Demo.request "Will I be happy?") 0%nat)
       = Some (PyFloat (Fin (round (16 # 100) 3)))
    /\ answer !! py "confidence"
       = Some (PyFloat (Fin (max (84 # 100, 16 # 100))))
    /\ field (py "confidence")
         (Demo.run question_depth (Demo.request "Will I be happy?") 0%nat)
       = Some (PyFloat (Fin (round (max (84 # 100, 16 # 100)) 3))).
Proof.
  apply (proj1 (at_demo (@training_helper_matches_endpoint) question_depth
                  (Demo.request "Will I be happy?")
                  {[ py "text" := PyStr (py "Will I be happy?") ]}
                  (py "Will I be happy?") 0%nat eq_refl eq_refl
                  ltac:(discriminate))
           (84 # 100) (16 # 100)).
  reflexivity.
Defined.

(** A reflection of 120 code points is echoed as 103. *)
Lemma reflection_echo_is_cut_witness :
  exists (answer : gmap str pyval) (shown : str),
    train_consequence_depth.get_depth_score
      (Demo.predict_proba consequence_depth) (replicate 120 97%N)
    = Ok (PyDict answer)
    /\ answer !! py "text" = Some (PyStr shown)
    /\ (length (replicate 120 97%N) <= 100 -> shown = replicate 120 97%N)%nat
    /\ (100 < length (replicate 120 97%N) ->
        shown = take 100 (replicate 120 97%N) ++ py "..."
        /\ length shown = 103)%nat
    /\ (length shown <= 103)%nat
    /\ take 100 shown = take 100 (replicate 120 97%N).
Proof.
  apply (proj1 (reflection_echo_is_cut (Demo.predict_proba consequence_depth)
                  (replicate 120 97%N) (0 # 100) (100 # 100) eq_refl)).
Defined.

(** A label file of two lines, the first with a rejection reason. *)
Lemma question_data_follows_file_witness :
  exists (items : list (gmap str pyval)) (scores : list pyval),
    Forall2 (fun line item =>
               Demo.jsonl_loads (strip line) = Ok (PyDict item))
      [Demo.labelled "Will I be happy?" "20" (Some "predictive") ++ [10%N];
       Demo.labelled "What might I notice in quiet moments?" "85" None
         ++ [10%N]]
      items
    /\ Forall2 (fun item text => item !! py "text" = Some text) items
         [PyStr (py "Will I be happy?");
          PyStr (py "What might I notice in quiet moments?")]
    /\ Forall2 (fun item score => item !! py "score" = Some score)
         items scores
    /\ Demo.np_array scores
       = Ok [PyFloat (Fin (20 # 100)); PyFloat (Fin (85 # 100))]
    /\ [PyDict {[ py "text" := PyStr (py "Will I be happy?");
                  py "reason" := PyStr (py "predictive");
                  py "guidance" := PyStr [] ]}]
       = omap rejection_entry items
    /\ length [PyStr (py "Will I be happy?");
               PyStr (py "What might I notice in quiet moments?")]
       = 2%nat
    /\ length scores = 2%nat.
Proof.
  apply (question_data_follows_file Demo.jsonl_loads Demo.subscript_message
           Demo.np_array
           [Demo.labelled "Will I be happy?" "20" (Some "predictive")
              ++ [10%N];
            Demo.labelled "What might I notice in quiet moments?" "85" None
              ++ [10%N]]).
  vm_compute. reflexivity.
Defined.

Lemma decision_and_consequence_data_follow_file_witness :
  exists (items : list (gmap str pyval)) (scores : list pyval),
    Forall2 (fun line item =>
               Demo.jsonl_loads (strip line) = Ok (PyDict item))
      [Demo.labelled "Quit my job" "90" None ++ [10%N]] items
    /\ Forall2 (fun item text => item !! py "text" = Some text) items
         [PyStr (py "Quit my job")]
    /\ Forall2 (fun item score => item !! py "score" = Some score)
         items scores
    /\ Demo.np_array scores = Ok [PyFloat (Fin (90 # 100))].
Proof.
  apply (proj1 (decision_and_consequence_data_follow_file Demo.jsonl_loads
                  Demo.subscript_message Demo.np_array
                  [Demo.labelled "Quit my job" "90" None ++ [10%N]])).
  vm_compute. reflexivity.
Defined.

(** A second line without a score. *)
Lemma first_bad_line_aborts_witness :
  train_question_depth.load_training_data Demo.jsonl_loads
    Demo.subscript_message Demo.np_array
    ([Demo.labelled "Will I be happy?" "20" (Some "predictive")]
       ++ Demo.request "Should I do this?"
       :: [Demo.labelled "Quit my job" "90" None])
  = Raise (KeyError "score").
Proof.
  apply (first_bad_line_aborts Demo.jsonl_loads Demo.subscript_message
           Demo.np_array
           [Demo.labelled "Will I be happy?" "20" (Some "predictive")]
           (Demo.request "Should I do this?")
           [Demo.labelled "Quit my job" "90" None] (KeyError "score")).
  - constructor; [|constructor].
    eexists. split; [vm_compute; reflexivity|].
    split; eexists; reflexivity.
  - right. right. eexists. split; [vm_compute; reflexivity|].
    right. split; [eexists; reflexivity|]. split; reflexivity.
Defined.

(** The same file with and without its line terminators. *)
Lemma loading_ignores_padding_witness :
  train_decision_gravity.load_training_data Demo.jsonl_loads
    Demo.subscript_message Demo.np_array
    [Demo.labelled "Quit my job" "90" None ++ [10%N]]
  = train_decision_gravity.load_training_data Demo.jsonl_loads
      Demo.subscript_message Demo.np_array
      [Demo.labelled "Quit my job" "90" None].
Proof.
  apply (loading_ignores_padding Demo.jsonl_loads Demo.subscript_message
           Demo.np_array [Demo.labelled "Quit my job" "90" None]
           [Demo.labelled "Quit my job" "90" None ++ [10%N]]).
  constructor; [|constructor].
  exists [], [10%N]. repeat split; reflexivity.
Defined.

(** A deployment from a directory that holds the question-depth model
    only. *)
Lemma configuration_lists_models_on_disk_witness :
  exists entries models : gmap str pyval,
    fst (Demo.deploy
           {| deploy_models.subscription_id := py "sub";
              deploy_models.resource_group := py "rg";
              deploy_models.workspace_name := py "ws";
              deploy_models.models_dir := py "/models" |} [])
    = Ok (PyDict entries)
    /\ entries !! py "models" = Some (PyDict models)
    /\ is_Some (models !! py "question-depth-classifier")
    /\ models !! py "decision-gravity-classifier" = None.
Proof.
  set (args := {| deploy_models.subscription_id := py "sub";
                  deploy_models.resource_group := py "rg";
                  deploy_models.workspace_name := py "ws";
                  deploy_models.models_dir := py "/models" |}).
  destruct (configuration_lists_models_on_disk Demo.join Demo.os_path_exists
              (fun _ _ _ => ret tt)
              (fun _ model_name _ _ => Demo.create_or_update model_name)
              (fun _ env_name _ _ _ => Demo.create_or_update env_name)
              (fun _ _ => ret tt) args
              (match fst (Demo.deploy args []) with
               | Ok config => config
               | Raise _ => PyNone
               end)
              [] (snd (Demo.deploy args [])) eq_refl)
    as (entries & models & Hconfig & _ & _ & _ & Hmodels & Hkeys).
  exists entries, models.
  split; [rewrite <- Hconfig; reflexivity|].
  split; [exact Hmodels|].
  split.
  - apply Hkeys. eexists. split; [right; left; reflexivity|reflexivity].
  - destruct (models !! py "decision-gravity-classifier") eqn:E;
      [|reflexivity].
    destruct (proj1 (Hkeys (py "decision-gravity-classifier")))
      as (file & Hin & Hex); [by eexists|].
    exfalso. simpl in Hin.
    destruct Hin as [[= <-]|[[=]|[[=]|[]]]]. discriminate Hex.
Defined.

(** A deployment from an empty directory. *)
Lemma nothing_to_register_is_no_failure_witness :
  exists config : pyval,
    deploy_models.main Demo.join (fun _ => false)
      (fun _ _ _ => ret tt)
      (fun _ model_name _ _ => Demo.create_or_update model_name)
      (fun _ env_name _ _ _ => Demo.create_or_update env_name)
      (fun _ _ => ret tt)
      {| deploy_models.subscription_id := py "sub";
         deploy_models.resource_group := py "rg";
         deploy_models.workspace_name := py "ws";
         deploy_models.models_dir := py "/models" |} []
    = (Ok config, [py "fcs-classifier-env"])
    /\ field (py "models") (Ok config, tt) = Some (PyDict ∅).
Proof.
  eexists. split.
  - rewrite (nothing_to_register_is_no_failure Demo.join (fun _ => false)
               (fun _ _ _ => ret tt)
               (fun _ model_name _ _ => Demo.create_or_update model_name)
               (fun _ env_name _ _ _ => Demo.create_or_update env_name)
               (fun _ _ => ret tt) _ tt
               {| deploy_models.name := PyStr (py "fcs-classifier-env");
                  deploy_models.version := PyStr (py "1");
                  deploy_models.id :=
                    PyStr (py "azureml:/" ++ py "fcs-classifier-env") |}
               [] [] [py "fcs-classifier-env"] eq_refl eq_refl
               (fun _ _ _ => eq_refl)).
    reflexivity.
  - reflexivity.
Defined.

End TrainingExamples.
